(** * PDF summarizer: extraction, provider adapters, orchestrator, HTTP view

    A shallow embedding of the summarization pipeline of the repository:
    - [src/model/pdf_extractor.py]      ([PDFExtractor.extract]),
    - [src/model/llm_port.py]           ([LLMRequest], [LLMResponse], [LLMPort]),
    - [src/model/adapters/*.py]         ([OllamaAdapter], [OpenAIAdapter]),
    - [src/model/pdf_summarizer.py]     ([PDFSummarizer]),
    - [src/view/fastapi_app.py]         ([summarize_pdf]).

    Python exceptions are values of type [exc] (class and message), the
    calls that leave the process (file system, HTTP, the OpenAI client) are
    oracles gathered in a [World] record, and every such call is recorded
    in a trace of [event]s threaded through an error monad.  Logging is
    left out: it changes neither results nor the calls that are made. *)

From Stdlib Require Import QArith Ascii String.
From stdpp Require Import base option list gmap strings pretty fin_maps.

Local Open Scope Z_scope.
Local Open Scope string_scope.

(** ** Python exceptions *)

(** The exception classes that the pipeline names or can meet, all below
    [Exception].  [OtherError] stands for any further class whose only
    ancestor of interest is [Exception]. *)
Inductive exc_class :=
  | Exception
  | ValueError | JSONDecodeError | ValidationError
  | OSError | FileNotFoundError | PermissionError
  | ConnectionError | ConnectionRefusedError
  | AttributeError | IndexError | RuntimeError
  | PdfReadError
  | HTTPError | RequestError | ConnectError | ReadTimeout | HTTPStatusError
  | OpenAIError | APIConnectionError | APITimeoutError | AuthenticationError
  | OtherError (name : string).

Global Instance exc_class_eq_dec : EqDecision exc_class.
Proof. solve_decision. Defined.

(** The classes a class inherits from, itself included (its MRO, cut at
    [Exception]). *)
Definition mro (c : exc_class) : list exc_class :=
  match c with
  | Exception => [Exception]
  | ValueError => [ValueError; Exception]
  | JSONDecodeError => [JSONDecodeError; ValueError; Exception]
  | ValidationError => [ValidationError; ValueError; Exception]
  | OSError => [OSError; Exception]
  | FileNotFoundError => [FileNotFoundError; OSError; Exception]
  | PermissionError => [PermissionError; OSError; Exception]
  | ConnectionError => [ConnectionError; OSError; Exception]
  | ConnectionRefusedError =>
      [ConnectionRefusedError; ConnectionError; OSError; Exception]
  | AttributeError => [AttributeError; Exception]
  | IndexError => [IndexError; Exception]
  | RuntimeError => [RuntimeError; Exception]
  | PdfReadError => [PdfReadError; Exception]
  | HTTPError => [HTTPError; Exception]
  | RequestError => [RequestError; HTTPError; Exception]
  | ConnectError => [ConnectError; RequestError; HTTPError; Exception]
  | ReadTimeout => [ReadTimeout; RequestError; HTTPError; Exception]
  | HTTPStatusError => [HTTPStatusError; HTTPError; Exception]
  | OpenAIError => [OpenAIError; Exception]
  | APIConnectionError => [APIConnectionError; OpenAIError; Exception]
  | APITimeoutError =>
      [APITimeoutError; APIConnectionError; OpenAIError; Exception]
  | AuthenticationError => [AuthenticationError; OpenAIError; Exception]
  | OtherError n => [OtherError n; Exception]
  end.

Definition issubclass (c d : exc_class) : bool := bool_decide (d ∈ mro c).

(** A raised exception: its class and [str(e)]. *)
Record exc := mk_exc { exc_type : exc_class; exc_str : string }.

Definition isinstance (e : exc) (c : exc_class) : bool :=
  issubclass (exc_type e) c.

(** ** Python values kept in [Dict[str, Any]] mappings and JSON bodies *)

#[local] Set Warnings "-register-all".

Inductive pyval :=
  | VNone
  | VBool (b : bool)
  | VInt (n : Z)
  | VFloat (q : Q)
  | VStr (s : string)
  | VList (l : list pyval)
  | VDict (d : gmap string pyval).

(** [d.get(k, dflt)] *)
Definition dict_get {V} (d : gmap string V) (k : string) (dflt : V) : V :=
  default dflt (d !! k).

(** Truth value of an [Optional[str]] and of an [Optional[int]]. *)
Definition truthy_str (o : option string) : bool :=
  match o with Some s => negb (bool_decide (s = "")) | None => false end.

Definition truthy_int (o : option Z) : bool :=
  match o with Some n => negb (n =? 0)%Z | None => false end.

Definition opt_int (o : option Z) : pyval :=
  match o with Some n => VInt n | None => VNone end.

(** ** Strings *)

(** [str.lower()] on the code units of the string: the letters [A]..[Z]
    go to [a]..[z], every other unit is kept.  The two literals the
    result is compared with, and the suffix looked for in a file name,
    are ASCII. *)
Definition lower_ascii (a : ascii) : ascii :=
  let n := nat_of_ascii a in
  if ((65 <=? n) && (n <=? 90))%nat then ascii_of_nat (n + 32) else a.

Fixpoint lower (s : string) : string :=
  match s with
  | EmptyString => EmptyString
  | String a s' => String (lower_ascii a) (lower s')
  end.

(** [s.endswith(suffix)] *)
Definition endswith (s suffix : string) : bool :=
  bool_decide (String.length suffix ≤ String.length s)%nat &&
  bool_decide (String.substring (String.length s - String.length suffix)
                 (String.length suffix) s = suffix).

(** [sep.join(l)] *)
Fixpoint join (sep : string) (l : list string) : string :=
  match l with
  | [] => ""
  | [x] => x
  | x :: l' => x +:+ sep +:+ join sep l'
  end.

Definition nl : string := String (ascii_of_nat 10) EmptyString.

(** ** The outside world and the effect monad *)

(** What PyPDF2 gives for an opened document: its pages, each with the
    outcome of [page.extract_text()], and the document information
    dictionary ([None] when the file has none) as its [items()], the
    values already passed through [str]. *)
Record PdfPage := { extract_text : exc + string }.

Record PdfDocument := {
  reader_pages : list PdfPage;
  reader_metadata : option (list (string * string))
}.

(** An [httpx.Response]: the outcome of [raise_for_status()] ([None] when
    it passes) and of [json()]. *)
Record HttpResponse := {
  raise_for_status : option exc;
  response_json : exc + pyval
}.

(** A chat completion of the OpenAI client. *)
Record Usage := {
  prompt_tokens : Z;
  completion_tokens : Z;
  total_tokens : Z
}.

Record Choice := {
  message_content : option string;
  finish_reason : string
}.

Record ChatCompletion := {
  choices : list Choice;
  completion_model : string;
  usage : option Usage
}.

(** The arguments of [client.chat.completions.create]. *)
Record ChatCall := {
  call_api_key : string;
  call_organization : option string;
  call_timeout : Q;
  call_model : string;
  call_messages : list (string * string);
  call_temperature : Q;
  call_max_tokens : Z
}.

(** The oracles.  The environment variables that the configuration
    classes read through [int(...)] and [float(...)] are given with the
    value those conversions yield.  [validation_error_str v] is the text
    of the [ValidationError] that pydantic raises when [v] is given for
    the [str] field of [LLMResponse]. *)
Record World := {
  os_environ : gmap string string;
  env_OLLAMA_TIMEOUT : option Z;
  env_OPENAI_TIMEOUT : option Q;
  os_path_isfile : string → bool;
  PdfReader : string → exc + PdfDocument;
  httpx_post : string → gmap string pyval → Z → exc + HttpResponse;
  chat_completions_create : ChatCall → exc + ChatCompletion;
  NamedTemporaryFile : exc + string;
  temp_file_write : string → list ascii → option exc;
  os_path_exists : string → bool;
  validation_error_str : pyval → string
}.

(** The calls recorded in the trace, one event per call that the code
    of the repository makes.  [EvHttpPost] is one [client.post] of httpx
    and [EvChatCompletion] one [client.chat.completions.create] of the
    OpenAI SDK; how many requests the library sends for the call is its
    own affair (the SDK client, built here with its default
    [max_retries], sends a failed request again). *)
Inductive event :=
  | EvOpenPdf (path : string)
  | EvHttpPost (url : string) (payload : gmap string pyval) (timeout : Z)
  | EvChatCompletion (call : ChatCall)
  | EvTempFile
  | EvWrite (path : string) (content : list ascii)
  | EvUnlink (path : string).

(** The calls that are handed to a library which goes to the network. *)
Definition is_network_call (ev : event) : bool :=
  match ev with
  | EvHttpPost _ _ _ | EvChatCompletion _ => true
  | _ => false
  end.

(** A computation takes the trace so far and gives either the exception
    it raises or its value, with the trace extended by its calls. *)
Definition M (A : Type) : Type := list event → (exc + A) * list event.

Global Instance M_ret : MRet M := λ A a tr, (inr a, tr).

Global Instance M_bind : MBind M := λ A B k m tr,
  match m tr with
  | (inl e, tr') => (inl e, tr')
  | (inr a, tr') => k a tr'
  end.

Definition raise {A} (e : exc) : M A := λ tr, (inl e, tr).

Definition lift {A} (r : exc + A) : M A := λ tr, (r, tr).

Definition emit (ev : event) : M unit := λ tr, (inr (), (tr ++ [ev])%list).

(** [try: m  except Exception as e: h e] *)
Definition try_except {A} (m : M A) (h : exc → M A) : M A := λ tr,
  match m tr with
  | (inl e, tr') => h e tr'
  | (inr a, tr') => (inr a, tr')
  end.

(** ** [pdf_extractor.py] *)

Record PDFExtractorConfig := {
  extract_images : bool;
  extract_tables : bool;
  page_range : option (Z * Z)
}.

Definition PDFExtractorConfig_default : PDFExtractorConfig :=
  {| extract_images := false; extract_tables := false; page_range := None |}.

Record PDFExtractResult := {
  er_text : string;
  er_path : string;
  er_pages : Z;
  er_metadata : gmap string string
}.

(** [l[i]], with Python's negative indices and [IndexError]. *)
Definition py_index {A} (l : list A) (i : Z) : exc + A :=
  let n := Z.of_nat (length l) in
  let j := if (i <? 0)%Z then (i + n)%Z else i in
  match (if (0 <=? j)%Z then l !! Z.to_nat j else None) with
  | Some x => inr x
  | None => inl (mk_exc IndexError "list index out of range")
  end.

(** [range(a, b)] *)
Definition range (a b : Z) : list Z := seqZ a (b - a).

(** [if key.startswith('/'): key = key[1:]] *)
Definition strip_slash (key : string) : string :=
  match key with
  | String "/"%char rest => rest
  | _ => key
  end.

(** The metadata loop of [extract]. *)
Definition collect_metadata (md : option (list (string * string)))
  : gmap string string :=
  match md with
  | Some items =>
      foldl (λ metadata kv, <[strip_slash kv.1 := kv.2]> metadata) ∅ items
  | None => ∅
  end.

(** The page loop of [extract]: [text_content] grows by one text per
    index. *)
Fixpoint extract_pages (reader : PdfDocument) (page_nums : list Z)
    (text_content : list string) : M (list string) :=
  match page_nums with
  | [] => mret text_content
  | page_num :: rest =>
      page ← lift (py_index (reader_pages reader) page_num);
      text ← lift (extract_text page);
      extract_pages reader rest (text_content ++ [text])%list
  end.

Definition blank_line : string := nl +:+ nl.

Definition extract (w : World) (config : PDFExtractorConfig)
    (pdf_path : string) : M PDFExtractResult :=
  if negb (os_path_isfile w pdf_path) then
    raise (mk_exc FileNotFoundError ("PDF file not found: " +:+ pdf_path))
  else
    try_except
      (emit (EvOpenPdf pdf_path);;
       reader ← lift (PdfReader w pdf_path);
       let num_pages := Z.of_nat (length (reader_pages reader)) in
       let metadata := collect_metadata (reader_metadata reader) in
       let '(start_page, end_page) :=
         match page_range config with
         | Some (s, e) => (Z.max 0 s, Z.min num_pages e)
         | None => (0%Z, num_pages)
         end in
       text_content ← extract_pages reader (range start_page end_page) [];
       mret {| er_text := join blank_line text_content;
               er_path := pdf_path;
               er_pages := num_pages;
               er_metadata := metadata |})
      (λ e,
         if isinstance e PdfReadError then
           raise (mk_exc ValueError ("Invalid PDF file: " +:+ exc_str e))
         else raise e).

(** ** [llm_port.py] *)

Record LLMRequest := {
  rq_prompt : string;
  rq_model : string;
  rq_temperature : Q;
  rq_max_tokens : option Z
}.

Record LLMResponse := {
  rs_text : string;
  rs_model : string;
  rs_metadata : gmap string pyval
}.

(** [LLMResponse(text=.., model=.., metadata=..)] with a [text] that
    comes from a JSON body: the [str] field is validated, the
    [Dict[str, Any]] field takes any mapping. *)
Definition LLMResponse_new (w : World) (text : pyval) (model : string)
    (metadata : gmap string pyval) : exc + LLMResponse :=
  match text with
  | VStr s => inr {| rs_text := s; rs_model := model; rs_metadata := metadata |}
  | _ => inl (mk_exc ValidationError (validation_error_str w text))
  end.

(** The abstract interface: one operation, [generate]. *)
Class LLMPort (A : Type) := generate : World → A → LLMRequest → M LLMResponse.

(** ** [adapters/ollama_adapter.py] *)

Record OllamaConfig := {
  base_url : string;
  ollama_timeout : Z
}.

Definition OllamaConfig_default (w : World) : OllamaConfig :=
  {| base_url := dict_get (os_environ w) "OLLAMA_API_URL" "http://localhost:11434";
     ollama_timeout := default 60%Z (env_OLLAMA_TIMEOUT w) |}.

Record OllamaAdapter := { ollama_config : OllamaConfig }.

Definition OllamaAdapter_init (w : World) (config : option OllamaConfig)
  : OllamaAdapter :=
  {| ollama_config := default (OllamaConfig_default w) config |}.

Definition ollama_payload (request : LLMRequest) : gmap string pyval :=
  let payload : gmap string pyval :=
    {[ "model" := VStr (rq_model request);
       "prompt" := VStr (rq_prompt request);
       "option" := VDict {[ "max_tokens" := opt_int (rq_max_tokens request);
                            "temperature" := VFloat (rq_temperature request) ]};
       "stream" := VBool false ]} in
  if truthy_int (rq_max_tokens request)
  then <["max_tokens" := opt_int (rq_max_tokens request)]> payload
  else payload.

(** [type(v).__name__] *)
Definition type_name (v : pyval) : string :=
  match v with
  | VNone => "NoneType"
  | VBool _ => "bool"
  | VInt _ => "int"
  | VFloat _ => "float"
  | VStr _ => "str"
  | VList _ => "list"
  | VDict _ => "dict"
  end.

(** [response_json.get]: only a JSON object has the method. *)
Definition get_method (v : pyval) : exc + gmap string pyval :=
  match v with
  | VDict d => inr d
  | _ =>
      inl (mk_exc AttributeError
             ("'" +:+ type_name v +:+ "' object has no attribute 'get'"))
  end.

(** The metadata mapping built from the parsed response. *)
Definition ollama_metadata (request : LLMRequest)
    (response_json : gmap string pyval) : gmap string pyval :=
  {[ "model_name" := dict_get response_json "model" (VStr (rq_model request));
     "total_duration" := dict_get response_json "total_duration" (VInt 0);
     "load_duration" := dict_get response_json "load_duration" (VInt 0);
     "prompt_eval_count" := dict_get response_json "prompt_eval_count" (VInt 0);
     "eval_count" := dict_get response_json "eval_count" (VInt 0);
     "eval_duration" := dict_get response_json "eval_duration" (VInt 0) ]}.

Definition ollama_generate (w : World) (self : OllamaAdapter)
    (request : LLMRequest) : M LLMResponse :=
  let api_url := base_url (ollama_config self) +:+ "/api/generate" in
  let payload := ollama_payload request in
  try_except
    (emit (EvHttpPost api_url payload (ollama_timeout (ollama_config self)));;
     response ← lift (httpx_post w api_url payload
                        (ollama_timeout (ollama_config self)));
     lift (match raise_for_status response with
           | Some e => inl e
           | None => inr ()
           end);;
     body ← lift (response_json response);
     response_json ← lift (get_method body);
     let text := dict_get response_json "response" (VStr "") in
     let metadata := ollama_metadata request response_json in
     lift (LLMResponse_new w text (rq_model request) metadata))
    (λ e,
       if isinstance e RequestError then
         raise (mk_exc ConnectionError
                  ("Failed to connect to Ollama API: " +:+ exc_str e))
       else if isinstance e JSONDecodeError then
         raise (mk_exc ValueError
                  ("Invalid response from Ollama API: " +:+ exc_str e))
       else raise e).

Global Instance OllamaAdapter_port : LLMPort OllamaAdapter := ollama_generate.

(** ** [adapters/openai_adapter.py] *)

Record OpenAIConfig := {
  api_key : string;
  organization : option string;
  openai_timeout : Q
}.

(** [OpenAIConfig(api_key=..)], and [OpenAIConfig()] when no key is
    passed: the other fields take their defaults. *)
Definition OpenAIConfig_new (w : World) (key : option string) : OpenAIConfig :=
  {| api_key := default (dict_get (os_environ w) "OPENAI_API_KEY" "") key;
     organization := os_environ w !! "OPENAI_ORGANIZATION";
     openai_timeout := default 60%Q (env_OPENAI_TIMEOUT w) |}.

Record OpenAIAdapter := { openai_config : OpenAIConfig }.

Definition OpenAIAdapter_init (w : World) (config : option OpenAIConfig)
  : exc + OpenAIAdapter :=
  let config := default (OpenAIConfig_new w None) config in
  if bool_decide (api_key config = "") then
    inl (mk_exc ValueError
           "OpenAI API key is required. Set it via OPENAI_API_KEY environment variable.")
  else inr {| openai_config := config |}.

Definition openai_call (self : OpenAIAdapter) (request : LLMRequest) : ChatCall :=
  {| call_api_key := api_key (openai_config self);
     call_organization := organization (openai_config self);
     call_timeout := openai_timeout (openai_config self);
     call_model := rq_model request;
     call_messages := [("system", "You are a helpful assistant.");
                       ("user", rq_prompt request)];
     call_temperature := rq_temperature request;
     call_max_tokens :=
       if truthy_int (rq_max_tokens request)
       then default 1024%Z (rq_max_tokens request) else 1024%Z |}.

Definition openai_metadata (response : ChatCompletion) (first : Choice)
  : gmap string pyval :=
  {[ "model_name" := VStr (completion_model response);
     "prompt_tokens" :=
       VInt (match usage response with Some u => prompt_tokens u | None => 0 end);
     "completion_tokens" :=
       VInt (match usage response with Some u => completion_tokens u | None => 0 end);
     "total_tokens" :=
       VInt (match usage response with Some u => total_tokens u | None => 0 end);
     "finish_reason" := VStr (finish_reason first) ]}.

Definition openai_generate (w : World) (self : OpenAIAdapter)
    (request : LLMRequest) : M LLMResponse :=
  try_except
    (emit (EvChatCompletion (openai_call self request));;
     response ← lift (chat_completions_create w (openai_call self request));
     match choices response with
     | [] => raise (mk_exc ValueError "No choices in OpenAI response")
     | first :: _ =>
         mret {| rs_text := default "" (message_content first);
                 rs_model := rq_model request;
                 rs_metadata := openai_metadata response first |}
     end)
    (λ e, raise (mk_exc ValueError ("Error with OpenAI API: " +:+ exc_str e))).

Global Instance OpenAIAdapter_port : LLMPort OpenAIAdapter := openai_generate.

(** ** [pdf_summarizer.py] *)

Record SummaryRequest := {
  pdf_path : string;
  provider : string;
  model : string;
  temperature : Q;
  max_tokens : option Z;
  openai_api_key : option string
}.

Record SummaryResponse := {
  summary : string;
  sr_pdf_path : string;
  sr_provider : string;
  sr_model : string;
  sr_metadata : gmap string pyval
}.

(** The value [_get_llm_adapter] returns: one of the two implementations
    of the port, [generate] being dispatched on it. *)
Inductive llm_adapter :=
  | Ollama (a : OllamaAdapter)
  | OpenAI (a : OpenAIAdapter).

Global Instance llm_adapter_port : LLMPort llm_adapter := λ w a,
  match a with
  | Ollama o => generate w o
  | OpenAI o => generate w o
  end.

Definition _get_llm_adapter (w : World) (request : SummaryRequest)
  : M llm_adapter :=
  if bool_decide (lower (provider request) = "ollama") then
    mret (Ollama (OllamaAdapter_init w None))
  else if bool_decide (lower (provider request) = "openai") then
    if negb (truthy_str (openai_api_key request)) then
      raise (mk_exc ValueError "OpenAI API key is required for OpenAI provider")
    else
      let config := OpenAIConfig_new w (openai_api_key request) in
      a ← lift (OpenAIAdapter_init w (Some config));
      mret (OpenAI a)
  else
    raise (mk_exc ValueError ("Unsupported provider: " +:+ provider request)).

Definition _create_summary_prompt (pdf_result : PDFExtractResult) : string :=
  nl +:+ "Please summarize the following document in a comprehensive way:"
  +:+ nl +:+ nl
  +:+ "DOCUMENT TITLE: " +:+ dict_get (er_metadata pdf_result) "Title" "Unknown"
  +:+ nl
  +:+ "DOCUMENT AUTHOR: " +:+ dict_get (er_metadata pdf_result) "Author" "Unknown"
  +:+ nl
  +:+ "DOCUMENT PAGES: " +:+ pretty (er_pages pdf_result)
  +:+ nl +:+ nl
  +:+ "DOCUMENT CONTENT:" +:+ nl
  +:+ er_text pdf_result
  +:+ nl +:+ nl
  +:+ "Please provide a structured summary covering the main points, key findings, and important details."
  +:+ nl.

Definition summary_metadata (pdf_result : PDFExtractResult)
    (llm_response : LLMResponse) : gmap string pyval :=
  {[ "pdf_pages" := VInt (er_pages pdf_result);
     "pdf_metadata" := VDict (VStr <$> er_metadata pdf_result);
     "llm_metadata" := VDict (rs_metadata llm_response) ]}.

Definition summarize (w : World) (request : SummaryRequest)
  : M SummaryResponse :=
  try_except
    (pdf_result ← extract w PDFExtractorConfig_default (pdf_path request);
     llm_adapter ← _get_llm_adapter w request;
     let prompt := _create_summary_prompt pdf_result in
     let llm_request :=
       {| rq_prompt := prompt;
          rq_model := model request;
          rq_temperature := temperature request;
          rq_max_tokens := max_tokens request |} in
     llm_response ← generate w llm_adapter llm_request;
     mret {| summary := rs_text llm_response;
             sr_pdf_path := pdf_path request;
             sr_provider := provider request;
             sr_model := model request;
             sr_metadata := summary_metadata pdf_result llm_response |})
    (λ e, raise e).

(** The request handed to the adapter. *)
Definition llm_request_of (request : SummaryRequest)
    (pdf_result : PDFExtractResult) : LLMRequest :=
  {| rq_prompt := _create_summary_prompt pdf_result;
     rq_model := model request;
     rq_temperature := temperature request;
     rq_max_tokens := max_tokens request |}.

(** The [try] block of [summarize]. *)
Definition summarize_steps (w : World) (request : SummaryRequest)
  : M SummaryResponse :=
  pdf_result ← extract w PDFExtractorConfig_default (pdf_path request);
  llm_adapter ← _get_llm_adapter w request;
  llm_response ← generate w llm_adapter (llm_request_of request pdf_result);
  mret {| summary := rs_text llm_response;
          sr_pdf_path := pdf_path request;
          sr_provider := provider request;
          sr_model := model request;
          sr_metadata := summary_metadata pdf_result llm_response |}.

(** ** [view/fastapi_app.py] *)

(** The uploaded file: its name and the outcome of [await file.read()]. *)
Record UploadFile := {
  filename : string;
  file_read : exc + list ascii
}.

Record HTTPException := {
  status_code : Z;
  detail : string
}.

Record APIResponse := {
  api_summary : string;
  api_filename : string;
  api_provider : string;
  api_model : string;
  api_metadata : gmap string pyval
}.

(** The [with tempfile.NamedTemporaryFile(...)] block; its value is what
    [temp_path] is bound to. *)
Definition save_upload (w : World) (file : UploadFile) : M string :=
  emit EvTempFile;;
  temp_file ← lift (NamedTemporaryFile w);
  content ← lift (file_read file);
  emit (EvWrite temp_file content);;
  lift (match temp_file_write w temp_file content with
        | Some e => inl e
        | None => inr ()
        end);;
  mret temp_file.

(** The [try] block of [summarize_pdf] up to the call of [summarize]:
    the value [temp_path] has when the block is left, and the block's
    outcome. *)
Definition summarize_pdf_body (w : World) (file : UploadFile)
    (provider model : string) (temperature : Q) (max_tokens : option Z)
    (openai_api_key : option string)
  : list event → option string * ((exc + SummaryResponse) * list event) := λ tr,
  match save_upload w file tr with
  | (inl e, tr1) => (None, (inl e, tr1))
  | (inr temp_path, tr1) =>
      let summary_request :=
        {| pdf_path := temp_path;
           provider := provider;
           model := model;
           temperature := temperature;
           max_tokens := max_tokens;
           openai_api_key :=
             if truthy_str openai_api_key then openai_api_key
             else os_environ w !! "OPENAI_API_KEY" |} in
      (Some temp_path, summarize w summary_request tr1)
  end.

(** The [except] clauses of [summarize_pdf], in their order. *)
Definition http_error (e : exc) : HTTPException :=
  if isinstance e FileNotFoundError then
    {| status_code := 404; detail := "PDF file not found: " +:+ exc_str e |}
  else if isinstance e ValueError then
    {| status_code := 400; detail := "Invalid request: " +:+ exc_str e |}
  else if isinstance e ConnectionError then
    {| status_code := 503; detail := "Connection error: " +:+ exc_str e |}
  else
    {| status_code := 500; detail := "Internal server error: " +:+ exc_str e |}.

(** The [finally] clause: a failing [os.unlink] is only logged. *)
Definition cleanup (w : World) (temp_path : option string)
    (tr : list event) : list event :=
  match temp_path with
  | Some p =>
      if negb (bool_decide (p = "")) && os_path_exists w p
      then (tr ++ [EvUnlink p])%list
      else tr
  | None => tr
  end.

Definition summarize_pdf (w : World) (file : UploadFile)
    (provider model : string) (temperature : Q) (max_tokens : option Z)
    (openai_api_key : option string)
  : list event → (HTTPException + APIResponse) * list event := λ tr,
  if negb (endswith (lower (filename file)) ".pdf") then
    (inl {| status_code := 400; detail := "Uploaded file must be a PDF" |}, tr)
  else
    let '(temp_path, (result, tr')) :=
      summarize_pdf_body w file provider model temperature max_tokens
        openai_api_key tr in
    let outcome :=
      match result with
      | inr response =>
          inr {| api_summary := summary response;
                 api_filename := filename file;
                 api_provider := sr_provider response;
                 api_model := sr_model response;
                 api_metadata := sr_metadata response |}
      | inl e => inl (http_error e)
      end in
    (outcome, cleanup w temp_path tr').

(** ** Concrete worlds

    A three-page report, a local server that answers or cannot be
    reached, and a cloud client that answers or cannot connect. *)

Definition page_of (t : string) : PdfPage := {| extract_text := inr t |}.

Definition report_pdf : PdfDocument :=
  {| reader_pages := [page_of "Page one"; page_of "Page two"; page_of "Page three"];
     reader_metadata := Some [("/Title", "Q1"); ("/Author", "Ann")] |}.

Definition stub_world (post : exc + HttpResponse) (chat : exc + ChatCompletion)
  : World :=
  {| os_environ := ∅;
     env_OLLAMA_TIMEOUT := None;
     env_OPENAI_TIMEOUT := None;
     os_path_isfile := λ p, bool_decide (p = "report.pdf");
     PdfReader := λ _, inr report_pdf;
     httpx_post := λ _ _ _, post;
     chat_completions_create := λ _, chat;
     NamedTemporaryFile := inr "report.pdf";
     temp_file_write := λ _ _, None;
     os_path_exists := λ _, true;
     validation_error_str := λ _,
       "1 validation error for LLMResponse" |}.

Definition ok_response (body : pyval) : HttpResponse :=
  {| raise_for_status := None; response_json := inr body |}.

Definition llama_body : pyval :=
  VDict {[ "response" := VStr "Summary text"; "model" := VStr "llama2:7b" ]}.

Definition gpt_completion : ChatCompletion :=
  {| choices := [{| message_content := Some "Summary text";
                    finish_reason := "stop" |}];
     completion_model := "gpt-4o-2024-08-06";
     usage := None |}.

Definition refused : exc := mk_exc ConnectError "All connection attempts failed".

Definition no_connection : exc := mk_exc APIConnectionError "Connection error.".

Definition local_world : World :=
  stub_world (inr (ok_response llama_body)) (inr gpt_completion).

Definition unreachable_world : World :=
  stub_world (inl refused) (inl no_connection).

Definition report_request (prov : string) (key : option string)
  : SummaryRequest :=
  {| pdf_path := "report.pdf";
     provider := prov;
     model := if bool_decide (lower prov = "openai") then "gpt-4o" else "llama2";
     temperature := 0.7%Q;
     max_tokens := None;
     openai_api_key := key |}.

(** A local server behind a proxy: an answer that [json()] cannot decode,
    once with a passing status and once with a 502. *)
Definition decode_error : exc :=
  mk_exc JSONDecodeError "Expecting value: line 1 column 1 (char 0)".

Definition garbled_response : HttpResponse :=
  {| raise_for_status := None; response_json := inl decode_error |}.

Definition bad_gateway : HttpResponse :=
  {| raise_for_status :=
       Some (mk_exc HTTPStatusError
               "Server error '502 Bad Gateway' for url 'http://localhost:11434/api/generate'");
     response_json := inl decode_error |}.

Definition garbled_world : World :=
  stub_world (inr garbled_response) (inl no_connection).

Definition bad_gateway_world : World :=
  stub_world (inr bad_gateway) (inl no_connection).

Definition llama_request : LLMRequest :=
  {| rq_prompt := "Summarize."; rq_model := "llama2";
     rq_temperature := 0.7%Q; rq_max_tokens := None |}.

(** A local server whose answer is the empty object. *)
Definition empty_answer_world : World :=
  stub_world (inr (ok_response (VDict ∅))) (inl no_connection).

(** The counters of the local server's answer. *)
Definition ollama_counters : list string :=
  ["total_duration"; "load_duration"; "prompt_eval_count"; "eval_count";
   "eval_duration"].


(** ** [view/console_view.py] *)

(** The terminal: the lines still to be typed, and what has been written
    so far (prompts and printed lines, in order). *)
Record Terminal := {
  stdin : list string;
  stdout : list string
}.

(** [os.path.isabs] and [os.path.abspath], which depend on the platform
    and on the working directory. *)
Record PathOps := {
  os_path_isabs : string → bool;
  os_path_abspath : string → string
}.

Definition Console (A : Type) : Type := Terminal → (exc + A) * Terminal.

Global Instance Console_ret : MRet Console := λ A a t, (inr a, t).

Global Instance Console_bind : MBind Console := λ A B k m t,
  match m t with
  | (inl e, t') => (inl e, t')
  | (inr a, t') => k a t'
  end.

Definition print (line : string) : Console unit := λ t,
  (inr (), {| stdin := stdin t; stdout := (stdout t ++ [line])%list |}).

Definition EOFError : exc :=
  mk_exc (OtherError "EOFError") "EOF when reading a line".

(** [input(prompt)] *)
Definition input (prompt : string) : Console string := λ t,
  match stdin t with
  | [] => (inl EOFError, {| stdin := []; stdout := (stdout t ++ [prompt])%list |})
  | line :: rest =>
      (inr line, {| stdin := rest; stdout := (stdout t ++ [prompt])%list |})
  end.

(** The characters [str.strip()] removes, each as its UTF-8 code units:
    U+0009..U+000D, U+001C..U+0020, U+0085, U+00A0, U+1680,
    U+2000..U+200A, U+2028, U+2029, U+202F, U+205F and U+3000. *)
Definition whitespace : list (list ascii) :=
  ((λ n, [ascii_of_nat n]) <$> [9; 10; 11; 12; 13; 28; 29; 30; 31; 32]%nat)
  ++ (map ascii_of_nat <$>
        [[194; 133]; [194; 160]; [225; 154; 128];
         [226; 128; 128]; [226; 128; 129]; [226; 128; 130]; [226; 128; 131];
         [226; 128; 132]; [226; 128; 133]; [226; 128; 134]; [226; 128; 135];
         [226; 128; 136]; [226; 128; 137]; [226; 128; 138];
         [226; 128; 168]; [226; 128; 169]; [226; 128; 175];
         [226; 129; 159]; [227; 128; 128]]%nat).

Definition starts_with (l t : list ascii) : bool :=
  bool_decide (take (length t) l = t).

(** Drops the tokens of [tokens] found at the head of [l], one per unit of
    fuel. *)
Fixpoint drop_leading (fuel : nat) (tokens : list (list ascii))
    (l : list ascii) : list ascii :=
  match fuel with
  | O => l
  | S fuel' =>
      match List.find (starts_with l) tokens with
      | Some t => drop_leading fuel' tokens (drop (length t) l)
      | None => l
      end
  end.

(** [s.strip()] *)
Definition strip (s : string) : string :=
  let l := list_ascii_of_string s in
  let l := drop_leading (length l) whitespace l in
  let r := drop_leading (length l) ((λ t, rev t) <$> whitespace) (rev l) in
  string_of_list_ascii (rev r).

(** The loop of [get_pdf_path]: one line is read per round. *)
Fixpoint get_pdf_path_loop (w : World) (ops : PathOps) (lines : list string)
    (out : list string) : (exc + string) * Terminal :=
  let out := (out ++ ["Enter the path to the PDF file: "])%list in
  match lines with
  | [] => (inl EOFError, {| stdin := []; stdout := out |})
  | line :: rest =>
      let pdf_path := strip line in
      if bool_decide (pdf_path = "") then
        get_pdf_path_loop w ops rest
          (out ++ ["Path cannot be empty. Please try again."])%list
      else
        let pdf_path :=
          if os_path_isabs ops pdf_path then pdf_path
          else os_path_abspath ops pdf_path in
        if negb (os_path_isfile w pdf_path) then
          get_pdf_path_loop w ops rest
            (out ++ ["File not found: " +:+ pdf_path;
                     "Please enter a valid path to a PDF file."])%list
        else if negb (endswith (lower pdf_path) ".pdf") then
          get_pdf_path_loop w ops rest
            (out ++ ["File is not a PDF: " +:+ pdf_path;
                     "Please enter a path to a PDF file."])%list
        else (inr pdf_path, {| stdin := rest; stdout := out |})
  end.

Definition get_pdf_path (w : World) (ops : PathOps) : Console string :=
  λ t, get_pdf_path_loop w ops (stdin t) (stdout t).

(** The first loop of [get_provider_details]. *)
Fixpoint select_provider_loop (lines : list string) (out : list string)
  : (exc + string) * Terminal :=
  let out := (out ++ ["Select LLM provider (ollama/openai): "])%list in
  match lines with
  | [] => (inl EOFError, {| stdin := []; stdout := out |})
  | line :: rest =>
      let provider := lower (strip line) in
      if negb (bool_decide (provider ∈ ["ollama"; "openai"])) then
        select_provider_loop rest
          (out ++ ["Invalid provider. Please enter 'ollama' or 'openai'."])%list
      else (inr provider, {| stdin := rest; stdout := out |})
  end.

(** [x or dflt] on strings. *)
Definition str_or (x dflt : string) : string :=
  if bool_decide (x = "") then dflt else x.

Definition get_provider_details : Console (string * string * option string) :=
  provider ← (λ t, select_provider_loop (stdin t) (stdout t));
  if bool_decide (provider = "ollama") then
    print "Available Ollama models: llama2, mistral, gemma, etc.";;
    answer ← input "Enter model name (default: llama2): ";
    mret (provider, str_or (strip answer) "llama2", None)
  else
    print "Available OpenAI models: gpt-3.5-turbo, gpt-4, etc.";;
    answer ← input "Enter model name (default: gpt-3.5-turbo): ";
    first_key ← input "Enter your OpenAI API key: ";
    if bool_decide (strip first_key = "") then
      print "API key is required for OpenAI. Please try again.";;
      second_key ← input "Enter your OpenAI API key: ";
      mret (provider, str_or (strip answer) "gpt-3.5-turbo",
            Some (strip second_key))
    else
      mret (provider, str_or (strip answer) "gpt-3.5-turbo",
            Some (strip first_key)).

Definition get_summary_request (w : World) (ops : PathOps)
  : Console SummaryRequest :=
  pdf_path ← get_pdf_path w ops;
  details ← get_provider_details;
  let '(provider, model, api_key) := details in
  mret {| pdf_path := pdf_path;
          provider := provider;
          model := model;
          temperature := 0.7%Q;
          max_tokens := None;
          openai_api_key := api_key |}.

(** ** [main.py] *)

(** What [custom_generate_unique_id] reads of a route; the tags as the
    f-string formats them. *)
Record APIRoute := {
  route_tags : list string;
  route_name : string;
  route_path_format : string
}.

Definition custom_generate_unique_id (route : APIRoute) : string :=
  if negb (bool_decide (route_tags route = []))
     && negb (bool_decide (route_name route = "")) then
    default "" (head (route_tags route)) +:+ "-" +:+ route_name route
  else
    str_or (route_name route) ("unnamed-route-" +:+ route_path_format route).

(** ** Further concrete worlds *)

(** As [stub_world], with the outcome of opening the document given. *)
Definition pdf_world (reader : exc + PdfDocument) (post : exc + HttpResponse)
    (chat : exc + ChatCompletion) : World :=
  {| os_environ := {[ "OPENAI_API_KEY" := "sk-env" ]};
     env_OLLAMA_TIMEOUT := Some 30%Z;
     env_OPENAI_TIMEOUT := None;
     os_path_isfile := λ p, bool_decide (p = "/data/report.pdf");
     PdfReader := λ _, reader;
     httpx_post := λ _ _ _, post;
     chat_completions_create := λ _, chat;
     NamedTemporaryFile := inr "/tmp/tmpa1b2.pdf";
     temp_file_write := λ _ _, None;
     os_path_exists := λ _, true;
     validation_error_str := λ _,
       "1 validation error for LLMResponse" |}.

Definition corrupt : exc := mk_exc PdfReadError "EOF marker not found".

Definition torn_pdf : PdfDocument :=
  {| reader_pages := [page_of "Page one"; {| extract_text := inl corrupt |};
                      page_of "Page three"];
     reader_metadata := None |}.

Definition posix_paths : PathOps :=
  {| os_path_isabs := λ p, bool_decide (take 1 (list_ascii_of_string p)
                                        = list_ascii_of_string "/");
     os_path_abspath := λ p, "/data/" +:+ p |}.



(** A server on which the saved upload is the report, with a key in the
    environment. *)
Definition upload_world (chat : exc + ChatCompletion) : World :=
  {| os_environ := {[ "OPENAI_API_KEY" := "sk-env" ]};
     env_OLLAMA_TIMEOUT := None;
     env_OPENAI_TIMEOUT := None;
     os_path_isfile := λ p, bool_decide (p = "/tmp/tmpa1b2.pdf");
     PdfReader := λ _, inr report_pdf;
     httpx_post := λ _ _ _, inl refused;
     chat_completions_create := λ _, chat;
     NamedTemporaryFile := inr "/tmp/tmpa1b2.pdf";
     temp_file_write := λ _ _, None;
     os_path_exists := λ _, true;
     validation_error_str := λ _,
       "1 validation error for LLMResponse" |}.

(** * Properties *)

(** ** The effect monad *)

Section monad_facts.
Context {A B : Type}.
Implicit Types (m : M A) (k : A → M B) (tr : list event).

Lemma bind_run m k tr :
  (m ≫= k) tr =
  match m tr with
  | (inl e, tr') => (inl e, tr')
  | (inr a, tr') => k a tr'
  end.
Proof. reflexivity. Qed.

Lemma bind_inl m k tr e tr' :
  m tr = (inl e, tr') → (m ≫= k) tr = (inl e, tr').
Proof. intros H. rewrite bind_run, H. reflexivity. Qed.

Lemma bind_inr m k tr a tr' :
  m tr = (inr a, tr') → (m ≫= k) tr = k a tr'.
Proof. intros H. rewrite bind_run, H. reflexivity. Qed.

(** A bind that returns went through both of its parts. *)
Lemma bind_returns m k tr b tr' :
  (m ≫= k) tr = (inr b, tr') →
  ∃ a tr1, m tr = (inr a, tr1) ∧ k a tr1 = (inr b, tr').
Proof.
  rewrite bind_run. destruct (m tr) as [[e|a] tr1]; [discriminate|].
  intros H. exists a, tr1. split; [reflexivity|exact H].
Qed.

(** A bind that raises does so in its first part or, that one having
    returned, in its second. *)
Lemma bind_raises m k tr e tr' :
  (m ≫= k) tr = (inl e, tr') →
  m tr = (inl e, tr') ∨
  ∃ a tr1, m tr = (inr a, tr1) ∧ k a tr1 = (inl e, tr').
Proof.
  rewrite bind_run. destruct (m tr) as [[e0|a] tr1].
  - intros [= -> ->]. left; reflexivity.
  - intros H. right. exists a, tr1. split; [reflexivity|exact H].
Qed.

End monad_facts.

(** [except Exception: raise] gives the outcome of the block it guards. *)
Lemma try_except_reraise {A} (m : M A) tr : try_except m raise tr = m tr.
Proof.
  unfold try_except, raise. destruct (m tr) as [[e|a] tr']; reflexivity.
Qed.

Lemma try_except_returns {A} (m : M A) h tr a tr' :
  m tr = (inr a, tr') → try_except m h tr = (inr a, tr').
Proof. intros H. unfold try_except. rewrite H. reflexivity. Qed.

Lemma try_except_raises {A} (m : M A) h tr e tr' :
  m tr = (inl e, tr') → try_except m h tr = h e tr'.
Proof. intros H. unfold try_except. rewrite H. reflexivity. Qed.

(** ** The extractor *)

Lemma py_index_nonneg {A} (l : list A) (i : nat) (x : A) :
  l !! i = Some x → py_index l (Z.of_nat i) = inr x.
Proof.
  intros H. unfold py_index.
  destruct (Z.ltb_spec (Z.of_nat i) 0); [lia|].
  destruct (Z.leb_spec 0 (Z.of_nat i)); [|lia].
  rewrite Nat2Z.id, H. reflexivity.
Qed.

(** The page loop over [range(a, a + len)] appends, in order, the texts
    of the pages at these indices, and makes no call. *)
Lemma extract_pages_range reader (ts : list string) :
  ∀ (a : nat) (len : Z) (text_content : list string) tr,
    Z.to_nat len = length ts →
    (∀ k t, ts !! k = Some t →
       ∃ p, reader_pages reader !! (a + k)%nat = Some p ∧ extract_text p = inr t) →
    extract_pages reader (seqZ (Z.of_nat a) len) text_content tr
    = (inr (text_content ++ ts)%list, tr).
Proof.
  induction ts as [|t ts IH]; intros a len acc tr Hlen Hpages.
  - unfold seqZ. rewrite Hlen. simpl. rewrite app_nil_r. reflexivity.
  - rewrite length_cons in Hlen. rewrite seqZ_cons by lia. simpl.
    destruct (Hpages 0%nat t eq_refl) as (p & Hp & Htext).
    rewrite Nat.add_0_r in Hp.
    erewrite bind_inr; [|unfold lift; rewrite (py_index_nonneg _ _ _ Hp); reflexivity].
    erewrite bind_inr; [|unfold lift; rewrite Htext; reflexivity].
    replace (Z.succ (Z.of_nat a)) with (Z.of_nat (S a)) by lia.
    rewrite (IH (S a) (Z.pred len) (acc ++ [t])%list tr).
    + rewrite <- app_assoc. reflexivity.
    + lia.
    + intros k t' Hk. destruct (Hpages (S k) t' Hk) as (p' & Hp' & Ht').
      exists p'. split; [|exact Ht'].
      replace (S a + k)%nat with (a + S k)%nat by lia. exact Hp'.
Qed.

(** [join] is the concatenation with a separator of the Standard
    Library. *)
Lemma join_concat (sep : string) (l : list string) :
  join sep l = String.concat sep l.
Proof.
  induction l as [|x l IH]; [reflexivity|].
  destruct l as [|y l]; [reflexivity|].
  change (join sep (x :: y :: l)) with (x +:+ sep +:+ join sep (y :: l)).
  rewrite IH. reflexivity.
Qed.

(** C5. For an existing file that PyPDF2 parses and a configured page
    range [(s, e)], when the pages with indices in
    [max(0,s), min(pages,e)) yield their text (the other pages need not),
    [extract] returns these texts, in order, with two line feeds between
    consecutive ones and nothing before or after, and reports the page
    count of the whole document. *)
Theorem extract_page_range (w : World) (config : PDFExtractorConfig)
    (path : string) (doc : PdfDocument) (s e : Z) (tr : list event) :
  os_path_isfile w path = true →
  PdfReader w path = inr doc →
  page_range config = Some (s, e) →
  (∀ (i : nat) p,
     (Z.max 0 s ≤ Z.of_nat i < Z.min (Z.of_nat (length (reader_pages doc))) e)%Z →
     reader_pages doc !! i = Some p →
     ∃ t, extract_text p = inr t) →
  ∃ r ts,
    extract w config path tr = (inr r, (tr ++ [EvOpenPdf path])%list) ∧
    er_pages r = Z.of_nat (length (reader_pages doc)) ∧
    er_text r = String.concat (String "010" (String "010" "")) ts ∧
    length ts
      = Z.to_nat (Z.min (Z.of_nat (length (reader_pages doc))) e - Z.max 0 s) ∧
    ∀ k t, ts !! k = Some t →
      ∃ p, reader_pages doc !! (Z.to_nat (Z.max 0 s) + k)%nat = Some p ∧
           extract_text p = inr t.
Proof.
  intros Hfile Hread Hrange Hreadable.
  set (n := Z.of_nat (length (reader_pages doc))) in *.
  set (a := Z.max 0 s) in *. set (b := Z.min n e) in *.
  set (text_of := λ p : PdfPage,
         match extract_text p with inr t => t | inl _ => "" end).
  set (ts := text_of <$> take (Z.to_nat (b - a))
                           (drop (Z.to_nat a) (reader_pages doc))).
  assert (Hlen : length ts = Z.to_nat (b - a)).
  { unfold ts. rewrite length_fmap, length_take, length_drop. subst a b n. lia. }
  assert (Hts : ∀ k t, ts !! k = Some t →
            ∃ p, reader_pages doc !! (Z.to_nat a + k)%nat = Some p ∧
                 extract_text p = inr t).
  { intros k t Hk.
    assert (Hlt : (k < Z.to_nat (b - a))%nat).
    { rewrite <- Hlen. eapply lookup_lt_Some. exact Hk. }
    unfold ts in Hk. rewrite list_lookup_fmap in Hk.
    rewrite lookup_take_lt, lookup_drop in Hk by exact Hlt.
    destruct (reader_pages doc !! (Z.to_nat a + k)%nat) as [p|] eqn:Hp;
      [|discriminate].
    injection Hk as <-. exists p. split; [reflexivity|].
    destruct (Hreadable (Z.to_nat a + k)%nat p) as [t Ht]; [lia|exact Hp|].
    unfold text_of. rewrite Ht. reflexivity. }
  exists {| er_text := join blank_line ts; er_path := path;
            er_pages := n;
            er_metadata := collect_metadata (reader_metadata doc) |}, ts.
  split; [|split; [reflexivity|split; [apply join_concat|split; [exact Hlen|exact Hts]]]].
  unfold extract. rewrite Hfile. cbn [negb].
  apply try_except_returns.
  rewrite bind_run. unfold emit.
  erewrite bind_inr; [|unfold lift; rewrite Hread; reflexivity].
  rewrite Hrange. fold n. fold a. fold b.
  erewrite bind_inr; [reflexivity|].
  unfold range. replace a with (Z.of_nat (Z.to_nat a)) at 1 by (subst a; lia).
  rewrite (extract_pages_range doc ts); [reflexivity|lia|exact Hts].
Qed.

(** The first two pages of the report; and the first page of a document
    whose second page cannot be read. *)
Lemma extract_page_range_witness :
  (∃ r, extract local_world
          {| extract_images := false; extract_tables := false;
             page_range := Some (-1, 2)%Z |} "report.pdf" []
        = (inr r, [EvOpenPdf "report.pdf"]) ∧
        er_pages r = 3%Z ∧
        er_text r = "Page one" +:+ String "010" (String "010" "Page two")) ∧
  (∃ r, extract (pdf_world (inr torn_pdf) (inl refused) (inl no_connection))
          {| extract_images := false; extract_tables := false;
             page_range := Some (0, 1)%Z |} "/data/report.pdf" []
        = (inr r, [EvOpenPdf "/data/report.pdf"]) ∧
        er_pages r = 3%Z ∧
        er_text r = "Page one").
Proof.
  split.
  - destruct (extract_page_range local_world
                {| extract_images := false; extract_tables := false;
                   page_range := Some (-1, 2)%Z |} "report.pdf" report_pdf
                (-1) 2 [] eq_refl eq_refl eq_refl)
      as (r & ts & Hrun & Hpages & Htext & Hlen & Hts).
    { intros i p Hi Hp. simpl in Hi.
      destruct i as [|[|i]]; [| |lia]; injection Hp as <-;
        eexists; reflexivity. }
    exists r. split; [exact Hrun|]. split; [exact Hpages|].
    destruct ts as [|t0 [|t1 [|t2 ts]]]; try discriminate.
    destruct (Hts 0%nat t0 eq_refl) as (p0 & [= <-] & [= <-]).
    destruct (Hts 1%nat t1 eq_refl) as (p1 & [= <-] & [= <-]).
    exact Htext.
  - destruct (extract_page_range
                (pdf_world (inr torn_pdf) (inl refused) (inl no_connection))
                {| extract_images := false; extract_tables := false;
                   page_range := Some (0, 1)%Z |} "/data/report.pdf" torn_pdf
                0 1 [] eq_refl eq_refl eq_refl)
      as (r & ts & Hrun & Hpages & Htext & Hlen & Hts).
    { intros i p Hi Hp. simpl in Hi.
      destruct i as [|i]; [|lia]. injection Hp as <-.
      eexists; reflexivity. }
    exists r. split; [exact Hrun|]. split; [exact Hpages|].
    destruct ts as [|t0 [|t1 ts]]; try discriminate.
    destruct (Hts 0%nat t0 eq_refl) as (p0 & [= <-] & [= <-]).
    exact Htext.
Defined.

(** ** The orchestrator *)

Lemma summarize_unfold w request tr :
  summarize w request tr = summarize_steps w request tr.
Proof. unfold summarize. apply try_except_reraise. Qed.

Lemma summary_metadata_dom pdf_result llm_response :
  dom (summary_metadata pdf_result llm_response)
  = ({["pdf_pages"; "pdf_metadata"; "llm_metadata"]} : gset string).
Proof.
  unfold summary_metadata.
  rewrite !dom_insert_L, dom_singleton_L. set_solver.
Qed.

(** C1. When [summarize] succeeds, the metadata of its response has
    exactly the keys [pdf_pages], [pdf_metadata] and [llm_metadata],
    bound to the page count and the metadata mapping of the extraction
    result and to the metadata mapping of the adapter's response. *)
Theorem summarize_metadata_keys (w : World) (request : SummaryRequest)
    (tr tr' : list event) (resp : SummaryResponse) :
  summarize w request tr = (inr resp, tr') →
  ∃ pdf_result llm_adapter llm_response tr1 tr2,
    extract w PDFExtractorConfig_default (pdf_path request) tr
      = (inr pdf_result, tr1) ∧
    _get_llm_adapter w request tr1 = (inr llm_adapter, tr2) ∧
    generate w llm_adapter (llm_request_of request pdf_result) tr2
      = (inr llm_response, tr') ∧
    dom (sr_metadata resp)
      = ({["pdf_pages"; "pdf_metadata"; "llm_metadata"]} : gset string) ∧
    sr_metadata resp !! "pdf_pages" = Some (VInt (er_pages pdf_result)) ∧
    sr_metadata resp !! "pdf_metadata"
      = Some (VDict (VStr <$> er_metadata pdf_result)) ∧
    sr_metadata resp !! "llm_metadata"
      = Some (VDict (rs_metadata llm_response)).
Proof.
  rewrite summarize_unfold. unfold summarize_steps. intros H.
  apply bind_returns in H as (pdf_result & tr1 & Hextract & H).
  apply bind_returns in H as (llm_adapter & tr2 & Hadapter & H).
  apply bind_returns in H as (llm_response & tr3 & Hgenerate & H).
  injection H as <- <-.
  exists pdf_result, llm_adapter, llm_response, tr1, tr2.
  split; [exact Hextract|]. split; [exact Hadapter|].
  split; [exact Hgenerate|]. split; [apply summary_metadata_dom|].
  simpl. unfold summary_metadata. split; [|split]; reflexivity.
Qed.

Lemma summarize_metadata_keys_witness :
  ∃ resp tr',
    summarize local_world (report_request "ollama" None) [] = (inr resp, tr') ∧
    ∃ pdf_result llm_adapter llm_response tr1 tr2,
      extract local_world PDFExtractorConfig_default "report.pdf" []
        = (inr pdf_result, tr1) ∧
      _get_llm_adapter local_world (report_request "ollama" None) tr1
        = (inr llm_adapter, tr2) ∧
      generate local_world llm_adapter
        (llm_request_of (report_request "ollama" None) pdf_result) tr2
        = (inr llm_response, tr') ∧
      dom (sr_metadata resp)
        = ({["pdf_pages"; "pdf_metadata"; "llm_metadata"]} : gset string) ∧
      sr_metadata resp !! "pdf_pages" = Some (VInt (er_pages pdf_result)) ∧
      sr_metadata resp !! "pdf_metadata"
        = Some (VDict (VStr <$> er_metadata pdf_result)) ∧
      sr_metadata resp !! "llm_metadata"
        = Some (VDict (rs_metadata llm_response)).
Proof.
  eexists _, _. split; [vm_compute; reflexivity|].
  apply (summarize_metadata_keys local_world (report_request "ollama" None) []).
  vm_compute. reflexivity.
Defined.

(** C2 (amended). [summarize] itself catches nothing for good: the error
    with which [extract], [_get_llm_adapter] or the adapter's [generate]
    returns to it is the error its caller gets, class and message. *)
Theorem summarize_propagates (w : World) (request : SummaryRequest)
    (tr tr' : list event) (e : exc) :
  extract w PDFExtractorConfig_default (pdf_path request) tr = (inl e, tr') ∨
  (∃ pdf_result tr1,
     extract w PDFExtractorConfig_default (pdf_path request) tr
       = (inr pdf_result, tr1) ∧
     _get_llm_adapter w request tr1 = (inl e, tr')) ∨
  (∃ pdf_result llm_adapter tr1 tr2,
     extract w PDFExtractorConfig_default (pdf_path request) tr
       = (inr pdf_result, tr1) ∧
     _get_llm_adapter w request tr1 = (inr llm_adapter, tr2) ∧
     generate w llm_adapter (llm_request_of request pdf_result) tr2
       = (inl e, tr')) →
  summarize w request tr = (inl e, tr').
Proof.
  rewrite summarize_unfold. unfold summarize_steps.
  intros [Hextract | [(r & tr1 & Hextract & Hadapter)
                     | (r & a & tr1 & tr2 & Hextract & Hadapter & Hgen)]].
  - apply bind_inl. exact Hextract.
  - rewrite (bind_inr _ _ _ _ _ Hextract). apply bind_inl. exact Hadapter.
  - rewrite (bind_inr _ _ _ _ _ Hextract), (bind_inr _ _ _ _ _ Hadapter).
    apply bind_inl. exact Hgen.
Qed.

(** Conversely, an error of [summarize] is the error of one of its three
    steps. *)
Lemma summarize_raises_inv (w : World) (request : SummaryRequest)
    (tr tr' : list event) (e : exc) :
  summarize w request tr = (inl e, tr') →
  extract w PDFExtractorConfig_default (pdf_path request) tr = (inl e, tr') ∨
  (∃ pdf_result tr1,
     extract w PDFExtractorConfig_default (pdf_path request) tr
       = (inr pdf_result, tr1) ∧
     _get_llm_adapter w request tr1 = (inl e, tr')) ∨
  (∃ pdf_result llm_adapter tr1 tr2,
     extract w PDFExtractorConfig_default (pdf_path request) tr
       = (inr pdf_result, tr1) ∧
     _get_llm_adapter w request tr1 = (inr llm_adapter, tr2) ∧
     generate w llm_adapter (llm_request_of request pdf_result) tr2
       = (inl e, tr')).
Proof.
  rewrite summarize_unfold. unfold summarize_steps. intros H.
  apply bind_raises in H as [H | (r & tr1 & Hextract & H)]; [left; exact H|].
  right. apply bind_raises in H as [H | (a & tr2 & Hadapter & H)].
  { left. exists r, tr1. split; [exact Hextract|exact H]. }
  right. apply bind_raises in H as [H | (lr & tr3 & _ & H)]; [|discriminate].
  exists r, a, tr1, tr2. split; [exact Hextract|]. split; [exact Hadapter|exact H].
Qed.

Lemma summarize_propagates_witness :
  ∃ e tr',
    summarize local_world (report_request "mistral" None) [] = (inl e, tr') ∧
    exc_type e = ValueError ∧
    exc_str e = "Unsupported provider: mistral".
Proof.
  exists (mk_exc ValueError "Unsupported provider: mistral"),
         [EvOpenPdf "report.pdf"].
  split; [|split; reflexivity].
  apply summarize_propagates. right. left.
  eexists _, _. split; vm_compute; reflexivity.
Defined.

(** C2 as stated fails: the adapters replace what their transport
    raises.  The local adapter turns httpx's [ConnectError] into a
    [ConnectionError], and the cloud adapter turns the client's
    [APIConnectionError] into a [ValueError]; in both runs the class that
    reaches the caller of [summarize] is not the class first raised. *)
Lemma summarize_error_kind_replaced :
  ((∀ url payload timeout,
      httpx_post unreachable_world url payload timeout = inl refused) ∧
   ∃ e tr',
     summarize unreachable_world (report_request "ollama" None) [] = (inl e, tr') ∧
     exc_type e = ConnectionError ∧
     exc_type e ≠ exc_type refused ∧
     isinstance refused ConnectionError = false) ∧
  (∀ call, chat_completions_create unreachable_world call = inl no_connection) ∧
  ∃ e tr',
    summarize unreachable_world (report_request "openai" (Some "sk-test")) []
      = (inl e, tr') ∧
    exc_type e = ValueError ∧
    exc_type e ≠ exc_type no_connection ∧
    isinstance no_connection ValueError = false.
Proof.
  split; [split; [reflexivity|]|split; [reflexivity|]].
  - eexists _, _. split; [vm_compute; reflexivity|].
    split; [reflexivity|]. split; [discriminate|reflexivity].
  - eexists _, _. split; [vm_compute; reflexivity|].
    split; [reflexivity|]. split; [discriminate|reflexivity].
Qed.

(** ** Provider resolution *)

Lemma truthy_str_false (o : option string) :
  truthy_str o = false ↔ o = None ∨ o = Some "".
Proof.
  destruct o as [s|]; simpl.
  - rewrite negb_false_iff, bool_decide_eq_true. split.
    + intros ->. right; reflexivity.
    + intros [H|H]; [discriminate|congruence].
  - split; [left; reflexivity|reflexivity].
Qed.

Lemma OpenAIAdapter_init_key (w : World) (key : string) :
  key ≠ "" →
  OpenAIAdapter_init w (Some (OpenAIConfig_new w (Some key)))
  = inr {| openai_config := OpenAIConfig_new w (Some key) |}.
Proof.
  intros Hkey. unfold OpenAIAdapter_init. simpl.
  rewrite bool_decide_eq_false_2 by exact Hkey. reflexivity.
Qed.

(** The cloud branch of [_get_llm_adapter]. *)
Lemma get_llm_adapter_openai (w : World) (request : SummaryRequest)
    (tr : list event) :
  lower (provider request) = "openai" →
  _get_llm_adapter w request tr
  = if truthy_str (openai_api_key request)
    then (inr (OpenAI {| openai_config :=
                           OpenAIConfig_new w (openai_api_key request) |}), tr)
    else (inl (mk_exc ValueError
                 "OpenAI API key is required for OpenAI provider"), tr).
Proof.
  intros H. unfold _get_llm_adapter.
  rewrite bool_decide_eq_false_2 by (rewrite H; discriminate).
  rewrite bool_decide_eq_true_2 by exact H.
  destruct (openai_api_key request) as [key|] eqn:Hkey; [|reflexivity].
  simpl. destruct (bool_decide (key = "")) eqn:Hempty; [reflexivity|].
  apply bool_decide_eq_false in Hempty. simpl.
  rewrite bind_run. unfold lift.
  rewrite (OpenAIAdapter_init_key w key Hempty). reflexivity.
Qed.

(** C3. Resolution looks at the lower-cased provider name only: a name
    that lower-cases to [ollama] gives the local adapter, one that
    lower-cases to [openai] takes the cloud branch (the cloud adapter
    built on the request's key, or the missing-key error), and any other
    name fails with a [ValueError] whose message ends with the name as it
    was given. *)
Theorem get_llm_adapter_by_lowercase (w : World) (request : SummaryRequest)
    (tr : list event) :
  (lower (provider request) = "ollama" →
     _get_llm_adapter w request tr
     = (inr (Ollama (OllamaAdapter_init w None)), tr)) ∧
  (lower (provider request) = "openai" →
     _get_llm_adapter w request tr
     = if truthy_str (openai_api_key request)
       then (inr (OpenAI {| openai_config :=
                              OpenAIConfig_new w (openai_api_key request) |}), tr)
       else (inl (mk_exc ValueError
                    "OpenAI API key is required for OpenAI provider"), tr)) ∧
  (lower (provider request) ≠ "ollama" →
   lower (provider request) ≠ "openai" →
     _get_llm_adapter w request tr
     = (inl (mk_exc ValueError
               ("Unsupported provider: " +:+ provider request)), tr)).
Proof.
  split; [|split].
  - intros H. unfold _get_llm_adapter.
    rewrite bool_decide_eq_true_2 by exact H. reflexivity.
  - apply get_llm_adapter_openai.
  - intros H1 H2. unfold _get_llm_adapter.
    rewrite !bool_decide_eq_false_2 by assumption. reflexivity.
Qed.

Lemma get_llm_adapter_by_lowercase_witness :
  _get_llm_adapter local_world (report_request "OLLAMA" None) []
    = (inr (Ollama (OllamaAdapter_init local_world None)), []) ∧
  _get_llm_adapter local_world (report_request "OpenAI" (Some "sk-test")) []
    = (inr (OpenAI {| openai_config :=
                        OpenAIConfig_new local_world (Some "sk-test") |}), []) ∧
  _get_llm_adapter local_world (report_request "Mistral" None) []
    = (inl (mk_exc ValueError "Unsupported provider: Mistral"), []).
Proof.
  split; [|split].
  - apply (get_llm_adapter_by_lowercase local_world
             (report_request "OLLAMA" None) []). reflexivity.
  - apply (proj1 (proj2 (get_llm_adapter_by_lowercase local_world
             (report_request "OpenAI" (Some "sk-test")) []))). reflexivity.
  - apply (proj2 (proj2 (get_llm_adapter_by_lowercase local_world
             (report_request "Mistral" None) []))); discriminate.
Defined.

(** ** No call before the credential check *)

Lemma extract_pages_trace reader page_nums :
  ∀ text_content tr, (extract_pages reader page_nums text_content tr).2 = tr.
Proof.
  induction page_nums as [|i rest IH]; intros acc tr; [reflexivity|].
  simpl. rewrite bind_run. unfold lift at 1.
  destruct (py_index (reader_pages reader) i) as [e|p]; [reflexivity|].
  rewrite bind_run. unfold lift.
  destruct (extract_text p) as [e|t]; [reflexivity|]. apply IH.
Qed.

(** [extract] adds at most the opening of the file to the trace. *)
Lemma extract_trace (w : World) (config : PDFExtractorConfig) (path : string)
    (tr : list event) :
  (extract w config path tr).2 = tr ∨
  (extract w config path tr).2 = (tr ++ [EvOpenPdf path])%list.
Proof.
  unfold extract. destruct (os_path_isfile w path); simpl; [|left; reflexivity].
  right. unfold try_except. rewrite bind_run. unfold emit.
  rewrite bind_run. unfold lift at 1.
  destruct (PdfReader w path) as [e|reader].
  { destruct (isinstance e PdfReadError); reflexivity. }
  destruct (page_range config) as [[s e]|].
  - rewrite bind_run.
    pose proof (extract_pages_trace reader
      (range (Z.max 0 s) (Z.min (Z.of_nat (length (reader_pages reader))) e))
      [] (tr ++ [EvOpenPdf path])%list) as Htr.
    destruct (extract_pages _ _ _ _) as [[e'|ts] tr1]; simpl in Htr; subst tr1.
    + destruct (isinstance e' PdfReadError); reflexivity.
    + reflexivity.
  - rewrite bind_run.
    pose proof (extract_pages_trace reader
      (range 0 (Z.of_nat (length (reader_pages reader))))
      [] (tr ++ [EvOpenPdf path])%list) as Htr.
    destruct (extract_pages _ _ _ _) as [[e'|ts] tr1]; simpl in Htr; subst tr1.
    + destruct (isinstance e' PdfReadError); reflexivity.
    + reflexivity.
Qed.

(** C4. With a provider that lower-cases to [openai] and a credential
    that is absent or empty, adapter resolution fails with a
    [ValueError], as does the constructor of the cloud adapter on an
    empty key; [summarize] then fails without any network call, and with
    that [ValueError] whenever extraction went through. *)
Theorem cloud_requires_credential (w : World) (request : SummaryRequest)
    (tr : list event) :
  lower (provider request) = "openai" →
  openai_api_key request = None ∨ openai_api_key request = Some "" →
  _get_llm_adapter w request tr
    = (inl (mk_exc ValueError "OpenAI API key is required for OpenAI provider"),
       tr) ∧
  (∀ config, api_key config = "" →
     ∃ msg, OpenAIAdapter_init w (Some config) = inl (mk_exc ValueError msg)) ∧
  ∃ e evs,
    summarize w request tr = (inl e, (tr ++ evs)%list) ∧
    Forall (λ ev, is_network_call ev = false) evs ∧
    (∀ pdf_result tr1,
       extract w PDFExtractorConfig_default (pdf_path request) tr
         = (inr pdf_result, tr1) →
       e = mk_exc ValueError "OpenAI API key is required for OpenAI provider").
Proof.
  intros Hprov Hkey. apply truthy_str_false in Hkey.
  assert (Hres : ∀ tr0, _get_llm_adapter w request tr0
    = (inl (mk_exc ValueError "OpenAI API key is required for OpenAI provider"),
       tr0)).
  { intros tr0.
    rewrite (get_llm_adapter_openai w request tr0 Hprov).
    rewrite Hkey. reflexivity. }
  split; [apply Hres|]. split.
  { intros config Hempty. eexists. unfold OpenAIAdapter_init. simpl.
    rewrite bool_decide_eq_true_2 by exact Hempty. reflexivity. }
  pose proof (extract_trace w PDFExtractorConfig_default (pdf_path request) tr)
    as Htrace.
  rewrite summarize_unfold. unfold summarize_steps. rewrite bind_run.
  destruct (extract w PDFExtractorConfig_default (pdf_path request) tr)
    as [[e|r] tr1] eqn:Hextract; simpl in Htrace.
  - exists e. destruct Htrace as [-> | ->].
    + exists []. rewrite app_nil_r. repeat split; [constructor|discriminate].
    + exists [EvOpenPdf (pdf_path request)].
      repeat split; [repeat constructor|discriminate].
  - rewrite bind_run, Hres.
    exists (mk_exc ValueError "OpenAI API key is required for OpenAI provider").
    destruct Htrace as [-> | ->].
    + exists []. rewrite app_nil_r. repeat split; constructor.
    + exists [EvOpenPdf (pdf_path request)].
      repeat split; repeat constructor.
Qed.

Lemma cloud_requires_credential_witness :
  _get_llm_adapter local_world (report_request "OpenAI" None) []
    = (inl (mk_exc ValueError "OpenAI API key is required for OpenAI provider"),
       []) ∧
  (∀ config, api_key config = "" →
     ∃ msg, OpenAIAdapter_init local_world (Some config)
            = inl (mk_exc ValueError msg)) ∧
  ∃ e evs,
    summarize local_world (report_request "OpenAI" None) []
      = (inl e, ([] ++ evs)%list) ∧
    Forall (λ ev, is_network_call ev = false) evs ∧
    (∀ pdf_result tr1,
       extract local_world PDFExtractorConfig_default
         (pdf_path (report_request "OpenAI" None)) []
         = (inr pdf_result, tr1) →
       e = mk_exc ValueError "OpenAI API key is required for OpenAI provider").
Proof.
  apply (cloud_requires_credential local_world (report_request "OpenAI" None) []).
  - reflexivity.
  - left. reflexivity.
Defined.

(** ** The local adapter *)

Lemma isinstance_JSONDecodeError (e : exc) :
  isinstance e JSONDecodeError = true → isinstance e RequestError = false.
Proof.
  destruct e as [c msg]. unfold isinstance. simpl.
  destruct c; vm_compute; congruence.
Qed.

(** What [ollama_generate] does once the transport has answered with a
    status that [raise_for_status] lets through. *)
Lemma ollama_generate_answered (w : World) (self : OllamaAdapter)
    (request : LLMRequest) (tr : list event) (response : HttpResponse) :
  let api_url := base_url (ollama_config self) +:+ "/api/generate" in
  let timeout := ollama_timeout (ollama_config self) in
  let tr' := (tr ++ [EvHttpPost api_url (ollama_payload request) timeout])%list in
  httpx_post w api_url (ollama_payload request) timeout = inr response →
  raise_for_status response = None →
  ollama_generate w self request tr =
  match response_json response with
  | inl e =>
      if isinstance e RequestError then
        (inl (mk_exc ConnectionError
                ("Failed to connect to Ollama API: " +:+ exc_str e)), tr')
      else if isinstance e JSONDecodeError then
        (inl (mk_exc ValueError
                ("Invalid response from Ollama API: " +:+ exc_str e)), tr')
      else (inl e, tr')
  | inr (VDict d) =>
      match LLMResponse_new w (dict_get d "response" (VStr ""))
              (rq_model request) (ollama_metadata request d) with
      | inr resp => (inr resp, tr')
      | inl e => (inl e, tr')
      end
  | inr body =>
      (inl (mk_exc AttributeError
              ("'" +:+ type_name body +:+ "' object has no attribute 'get'")),
       tr')
  end.
Proof.
  intros api_url timeout tr' Hpost Hstatus.
  unfold ollama_generate, try_except. fold api_url. fold timeout.
  rewrite bind_run. unfold emit. fold tr'.
  rewrite bind_run. unfold lift at 1. rewrite Hpost.
  rewrite bind_run. unfold lift at 1. rewrite Hstatus.
  rewrite bind_run. unfold lift at 1.
  destruct (response_json response) as [e|body].
  { destruct (isinstance e RequestError); [reflexivity|].
    destruct (isinstance e JSONDecodeError); reflexivity. }
  rewrite bind_run. unfold lift at 1.
  destruct body as [| | | | |l|d]; try reflexivity.
  simpl. unfold lift.
  destruct (dict_get d "response" (VStr "")); reflexivity.
Qed.

(** C6 (amended). A transport failure (an [httpx.RequestError]) makes
    [generate] fail with a [ConnectionError]; an answer whose status
    [raise_for_status] lets through and whose body [json()] rejects makes
    it fail with a [ValueError]. *)
Theorem ollama_generate_failures (w : World) (self : OllamaAdapter)
    (request : LLMRequest) (tr : list event) :
  let api_url := base_url (ollama_config self) +:+ "/api/generate" in
  let timeout := ollama_timeout (ollama_config self) in
  let tr' := (tr ++ [EvHttpPost api_url (ollama_payload request) timeout])%list in
  (∀ e, httpx_post w api_url (ollama_payload request) timeout = inl e →
        isinstance e RequestError = true →
        generate w self request tr
        = (inl (mk_exc ConnectionError
                  ("Failed to connect to Ollama API: " +:+ exc_str e)), tr')) ∧
  (∀ response e,
        httpx_post w api_url (ollama_payload request) timeout = inr response →
        raise_for_status response = None →
        response_json response = inl e →
        isinstance e JSONDecodeError = true →
        generate w self request tr
        = (inl (mk_exc ValueError
                  ("Invalid response from Ollama API: " +:+ exc_str e)), tr')).
Proof.
  intros api_url timeout tr'. split.
  - intros e Hpost Hreq.
    unfold generate, OllamaAdapter_port, ollama_generate, try_except.
    fold api_url. fold timeout.
    rewrite bind_run. unfold emit. fold tr'.
    rewrite bind_run. unfold lift at 1. rewrite Hpost, Hreq. reflexivity.
  - intros response e Hpost Hstatus Hjson Hdecode.
    unfold generate, OllamaAdapter_port.
    rewrite (ollama_generate_answered w self request tr response Hpost Hstatus).
    rewrite Hjson, (isinstance_JSONDecodeError e Hdecode), Hdecode. reflexivity.
Qed.

Lemma ollama_generate_failures_witness :
  (∃ tr', generate unreachable_world (OllamaAdapter_init unreachable_world None)
            llama_request []
          = (inl (mk_exc ConnectionError
                    "Failed to connect to Ollama API: All connection attempts failed"),
             tr')) ∧
  (∃ tr', generate garbled_world (OllamaAdapter_init garbled_world None)
            llama_request []
          = (inl (mk_exc ValueError
                    "Invalid response from Ollama API: Expecting value: line 1 column 1 (char 0)"),
             tr')).
Proof.
  split; eexists.
  - apply (proj1 (ollama_generate_failures unreachable_world
                    (OllamaAdapter_init unreachable_world None) llama_request [])
             refused); reflexivity.
  - apply (proj2 (ollama_generate_failures garbled_world
                    (OllamaAdapter_init garbled_world None) llama_request [])
             garbled_response decode_error); reflexivity.
Defined.

(** C6 as stated fails on an answer with an error status: the transport
    succeeded and the body is not JSON, yet [generate] fails with the
    [HTTPStatusError] of [raise_for_status], which is no [ValueError]. *)
Lemma ollama_generate_status_error :
  (∀ url payload timeout,
     httpx_post bad_gateway_world url payload timeout = inr bad_gateway) ∧
  response_json bad_gateway = inl decode_error ∧
  isinstance decode_error JSONDecodeError = true ∧
  ∃ e tr',
    generate bad_gateway_world (OllamaAdapter_init bad_gateway_world None)
      llama_request [] = (inl e, tr') ∧
    exc_type e = HTTPStatusError ∧
    isinstance e ValueError = false.
Proof.
  split; [reflexivity|]. split; [reflexivity|]. split; [reflexivity|].
  eexists _, _. split; [vm_compute; reflexivity|]. split; reflexivity.
Qed.

Lemma ollama_metadata_dom (request : LLMRequest) (d : gmap string pyval) :
  dom (ollama_metadata request d)
  = ({["model_name"]} ∪ list_to_set ollama_counters : gset string).
Proof.
  unfold ollama_metadata, ollama_counters.
  rewrite !dom_insert_L, dom_singleton_L. simpl. set_solver.
Qed.

Lemma ollama_metadata_counter (request : LLMRequest) (d : gmap string pyval)
    (k : string) :
  k ∈ ollama_counters →
  ollama_metadata request d !! k = Some (dict_get d k (VInt 0)).
Proof.
  unfold ollama_counters. intros Hk.
  repeat (apply elem_of_cons in Hk as [-> | Hk]);
    [reflexivity..|by apply elem_of_nil in Hk].
Qed.

(** C7. The metadata built from a parsed answer has exactly the keys
    [model_name] and the five counters; [model_name] is the answer's
    [model] or else the request's model, a counter is the answer's value
    or else [0]; and [generate] returns this metadata for every answer
    object whose [response] is a string or is missing, whichever of the
    other fields are missing. *)
Theorem ollama_metadata_defaults (request : LLMRequest)
    (d : gmap string pyval) :
  let md := ollama_metadata request d in
  dom md = ({["model_name"]} ∪ list_to_set ollama_counters : gset string) ∧
  md !! "model_name" = Some (default (VStr (rq_model request)) (d !! "model")) ∧
  (∀ k, k ∈ ollama_counters → md !! k = Some (default (VInt 0) (d !! k))) ∧
  (∀ k, k ∈ ollama_counters → d !! k = None → md !! k = Some (VInt 0)) ∧
  (∀ w (self : OllamaAdapter) tr response text,
     httpx_post w (base_url (ollama_config self) +:+ "/api/generate")
       (ollama_payload request) (ollama_timeout (ollama_config self))
       = inr response →
     raise_for_status response = None →
     response_json response = inr (VDict d) →
     default (VStr "") (d !! "response") = VStr text →
     ∃ tr', generate w self request tr
            = (inr {| rs_text := text; rs_model := rq_model request;
                      rs_metadata := md |}, tr')).
Proof.
  intros md. split; [apply ollama_metadata_dom|].
  split; [reflexivity|]. split; [apply ollama_metadata_counter|]. split.
  - intros k Hk Hnone. unfold md.
    rewrite (ollama_metadata_counter request d k Hk).
    unfold dict_get. rewrite Hnone. reflexivity.
  - intros w self tr response text Hpost Hstatus Hjson Htext.
    eexists. unfold generate, OllamaAdapter_port.
    rewrite (ollama_generate_answered w self request tr response Hpost Hstatus).
    rewrite Hjson. unfold dict_get. rewrite Htext. reflexivity.
Qed.

Lemma ollama_metadata_defaults_witness :
  ∃ tr', generate empty_answer_world (OllamaAdapter_init empty_answer_world None)
           llama_request []
         = (inr {| rs_text := ""; rs_model := "llama2";
                   rs_metadata := ollama_metadata llama_request ∅ |}, tr') ∧
         ollama_metadata llama_request ∅ !! "model_name" = Some (VStr "llama2") ∧
         ollama_metadata llama_request ∅ !! "eval_count" = Some (VInt 0).
Proof.
  destruct (ollama_metadata_defaults llama_request ∅)
    as (_ & Hmodel & _ & Hzero & Hgen).
  destruct (Hgen empty_answer_world (OllamaAdapter_init empty_answer_world None)
              [] (ok_response (VDict ∅)) "" eq_refl eq_refl eq_refl eq_refl)
    as [tr' Hrun].
  exists tr'. split; [exact Hrun|]. split; [exact Hmodel|].
  apply Hzero; [|reflexivity].
  unfold ollama_counters. do 3 apply list_elem_of_further. apply list_elem_of_here.
Defined.

(** ** The model field of an adapter's response *)

(** A successful [ollama_generate] got an answer that passed the status
    check and parsed to an object, and built its response from it. *)
Lemma ollama_generate_returns_inv (w : World) (self : OllamaAdapter)
    (request : LLMRequest) (tr tr' : list event) (resp : LLMResponse) :
  ollama_generate w self request tr = (inr resp, tr') →
  ∃ response d,
    httpx_post w (base_url (ollama_config self) +:+ "/api/generate")
      (ollama_payload request) (ollama_timeout (ollama_config self))
      = inr response ∧
    raise_for_status response = None ∧
    response_json response = inr (VDict d) ∧
    LLMResponse_new w (dict_get d "response" (VStr "")) (rq_model request)
      (ollama_metadata request d) = inr resp.
Proof.
  destruct (httpx_post w (base_url (ollama_config self) +:+ "/api/generate")
              (ollama_payload request) (ollama_timeout (ollama_config self)))
    as [e|response] eqn:Hpost.
  { unfold ollama_generate, try_except. rewrite bind_run. unfold emit.
    rewrite bind_run. unfold lift at 1. rewrite Hpost.
    destruct (isinstance e RequestError); [discriminate|].
    destruct (isinstance e JSONDecodeError); discriminate. }
  destruct (raise_for_status response) as [e|] eqn:Hstatus.
  { unfold ollama_generate, try_except. rewrite bind_run. unfold emit.
    rewrite bind_run. unfold lift at 1. rewrite Hpost.
    rewrite bind_run. unfold lift at 1. rewrite Hstatus.
    destruct (isinstance e RequestError); [discriminate|].
    destruct (isinstance e JSONDecodeError); discriminate. }
  rewrite (ollama_generate_answered w self request tr response Hpost Hstatus).
  destruct (response_json response) as [e|body] eqn:Hjson.
  { destruct (isinstance e RequestError); [discriminate|].
    destruct (isinstance e JSONDecodeError); discriminate. }
  destruct body as [| | | | |l|d]; try discriminate.
  destruct (LLMResponse_new _ _ _ _) as [e|resp'] eqn:Hnew; [discriminate|].
  intros [= -> _]. exists response, d. repeat split; assumption.
Qed.

(** A successful [openai_generate] got a completion with a first choice. *)
Lemma openai_generate_returns_inv (w : World) (self : OpenAIAdapter)
    (request : LLMRequest) (tr tr' : list event) (resp : LLMResponse) :
  openai_generate w self request tr = (inr resp, tr') →
  ∃ response first rest,
    chat_completions_create w (openai_call self request) = inr response ∧
    choices response = first :: rest ∧
    resp = {| rs_text := default "" (message_content first);
              rs_model := rq_model request;
              rs_metadata := openai_metadata response first |}.
Proof.
  unfold openai_generate, try_except. rewrite bind_run. unfold emit.
  rewrite bind_run. unfold lift.
  destruct (chat_completions_create w (openai_call self request))
    as [e|response]; [discriminate|].
  destruct (choices response) as [|first rest] eqn:Hchoices; [discriminate|].
  intros [= <- _]. exists response, first, rest. repeat split. exact Hchoices.
Qed.

(** C10. The [model] of a response that [generate] returns is the model
    of the request, for both adapters; what the provider names as its
    model is the value of [model_name] in the metadata (for the local
    adapter: the answer's [model], the request's model when the answer
    has none). *)
Theorem generate_echoes_request_model (w : World) (a : llm_adapter)
    (request : LLMRequest) (tr tr' : list event) (resp : LLMResponse) :
  generate w a request tr = (inr resp, tr') →
  rs_model resp = rq_model request ∧
  match a with
  | Ollama self =>
      ∃ response d,
        httpx_post w (base_url (ollama_config self) +:+ "/api/generate")
          (ollama_payload request) (ollama_timeout (ollama_config self))
          = inr response ∧
        response_json response = inr (VDict d) ∧
        rs_metadata resp !! "model_name"
          = Some (default (VStr (rq_model request)) (d !! "model"))
  | OpenAI self =>
      ∃ response,
        chat_completions_create w (openai_call self request) = inr response ∧
        rs_metadata resp !! "model_name" = Some (VStr (completion_model response))
  end.
Proof.
  destruct a as [self|self]; unfold generate, llm_adapter_port; intros H.
  - apply ollama_generate_returns_inv in H
      as (response & d & Hpost & _ & Hjson & Hnew).
    unfold LLMResponse_new in Hnew.
    destruct (dict_get d "response" (VStr "")); try discriminate.
    injection Hnew as <-. simpl. split; [reflexivity|].
    exists response, d. repeat split; assumption.
  - apply openai_generate_returns_inv in H
      as (response & first & rest & Hcall & _ & ->).
    simpl. split; [reflexivity|]. exists response. split; [exact Hcall|reflexivity].
Qed.

Lemma generate_echoes_request_model_witness :
  ∃ resp tr',
    generate local_world (Ollama (OllamaAdapter_init local_world None))
      llama_request [] = (inr resp, tr') ∧
    rs_model resp = "llama2" ∧
    rs_metadata resp !! "model_name" = Some (VStr "llama2:7b").
Proof.
  eexists _, _. split; [vm_compute; reflexivity|].
  destruct (generate_echoes_request_model local_world
              (Ollama (OllamaAdapter_init local_world None)) llama_request [] _ _
              eq_refl) as [Hmodel (response & d & Hpost & Hjson & Hname)].
  split; [exact Hmodel|].
  injection Hpost as <-. injection Hjson as <-. exact Hname.
Defined.

(** ** The prompt *)

(** C8. The prompt is one fixed text with four holes, filled in this
    order with the [Title] of the extraction metadata ([Unknown] when
    there is none), its [Author] ([Unknown] when there is none), the page
    count in decimal and the whole extracted text; the text after the
    last hole asks for a structured summary of main points, key findings
    and details. *)
Theorem create_summary_prompt_template (pdf_result : PDFExtractResult) :
  _create_summary_prompt pdf_result
  = (nl +:+ "Please summarize the following document in a comprehensive way:"
       +:+ nl +:+ nl +:+ "DOCUMENT TITLE: ")
    +:+ default "Unknown" (er_metadata pdf_result !! "Title")
    +:+ (nl +:+ "DOCUMENT AUTHOR: ")
    +:+ default "Unknown" (er_metadata pdf_result !! "Author")
    +:+ (nl +:+ "DOCUMENT PAGES: ")
    +:+ pretty (er_pages pdf_result)
    +:+ (nl +:+ nl +:+ "DOCUMENT CONTENT:" +:+ nl)
    +:+ er_text pdf_result
    +:+ (nl +:+ nl
         +:+ "Please provide a structured summary covering the main points, key findings, and important details."
         +:+ nl).
Proof. reflexivity. Qed.

(** A document whose information dictionary has a title and no author. *)
Example create_summary_prompt_untitled_author :
  _create_summary_prompt
    {| er_text := "Page one"; er_path := "report.pdf"; er_pages := 3;
       er_metadata := collect_metadata (Some [("/Title", "Q1")]) |}
  = nl +:+ "Please summarize the following document in a comprehensive way:"
    +:+ nl +:+ nl +:+ "DOCUMENT TITLE: Q1" +:+ nl
    +:+ "DOCUMENT AUTHOR: Unknown" +:+ nl
    +:+ "DOCUMENT PAGES: 3" +:+ nl +:+ nl
    +:+ "DOCUMENT CONTENT:" +:+ nl +:+ "Page one" +:+ nl +:+ nl
    +:+ "Please provide a structured summary covering the main points, key findings, and important details."
    +:+ nl.
Proof. vm_compute. reflexivity. Qed.

(** ** The HTTP endpoint *)

Lemma isinstance_ValueError_not_found (e : exc) :
  isinstance e ValueError = true → isinstance e FileNotFoundError = false.
Proof.
  destruct e as [c msg]. unfold isinstance. simpl.
  destruct c; vm_compute; congruence.
Qed.

Lemma isinstance_ConnectionError_only (e : exc) :
  isinstance e ConnectionError = true →
  isinstance e FileNotFoundError = false ∧ isinstance e ValueError = false.
Proof.
  destruct e as [c msg]. unfold isinstance. simpl.
  destruct c; vm_compute; intuition congruence.
Qed.

(** C9. A file name that does not end in [.pdf], whatever its case, is
    answered with status 400 and nothing is done; for any other name, an
    error [e] of the processing (saving the upload, then [summarize]) is
    answered with 404 when [e] is a [FileNotFoundError], 400 when it is a
    [ValueError], 503 when it is a [ConnectionError], and 500 otherwise. *)
Theorem summarize_pdf_status (w : World) (file : UploadFile)
    (provider model : string) (temperature : Q) (max_tokens : option Z)
    (key : option string) (tr : list event) :
  (endswith (lower (filename file)) ".pdf" = false →
     summarize_pdf w file provider model temperature max_tokens key tr
     = (inl {| status_code := 400; detail := "Uploaded file must be a PDF" |},
        tr)) ∧
  (endswith (lower (filename file)) ".pdf" = true →
   ∀ temp_path e tr',
     summarize_pdf_body w file provider model temperature max_tokens key tr
       = (temp_path, (inl e, tr')) →
     ∃ answer,
       (summarize_pdf w file provider model temperature max_tokens key tr).1
         = inl answer ∧
       (isinstance e FileNotFoundError = true → status_code answer = 404) ∧
       (isinstance e ValueError = true → status_code answer = 400) ∧
       (isinstance e ConnectionError = true → status_code answer = 503) ∧
       (isinstance e FileNotFoundError = false →
        isinstance e ValueError = false →
        isinstance e ConnectionError = false → status_code answer = 500)).
Proof.
  unfold summarize_pdf. split.
  - intros Hname. rewrite Hname. reflexivity.
  - intros Hname temp_path e tr' Hbody. rewrite Hname, Hbody. simpl.
    exists (http_error e). split; [reflexivity|]. unfold http_error.
    split; [intros ->; reflexivity|]. split; [|split].
    + intros Hv. rewrite (isinstance_ValueError_not_found e Hv), Hv. reflexivity.
    + intros Hc. destruct (isinstance_ConnectionError_only e Hc) as [-> ->].
      rewrite Hc. reflexivity.
    + intros -> -> ->. reflexivity.
Qed.

Lemma summarize_pdf_status_witness :
  summarize_pdf local_world {| filename := "notes.txt"; file_read := inr [] |}
    "ollama" "llama2" 0.7%Q None None []
  = (inl {| status_code := 400; detail := "Uploaded file must be a PDF" |}, []) ∧
  ∃ answer,
    (summarize_pdf unreachable_world
       {| filename := "Report.PDF"; file_read := inr [] |}
       "ollama" "llama2" 0.7%Q None None []).1 = inl answer ∧
    status_code answer = 503.
Proof.
  split.
  - apply (summarize_pdf_status local_world
             {| filename := "notes.txt"; file_read := inr [] |}). reflexivity.
  - destruct (proj2 (summarize_pdf_status unreachable_world
                {| filename := "Report.PDF"; file_read := inr [] |}
                "ollama" "llama2" 0.7%Q None None []) eq_refl
              (Some "report.pdf")
              (mk_exc ConnectionError
                 "Failed to connect to Ollama API: All connection attempts failed")
              _ eq_refl)
      as (answer & Hanswer & _ & _ & Hstatus & _).
    exists answer. split; [exact Hanswer|]. apply Hstatus. reflexivity.
Defined.

(** * Further properties of the extractor *)

Lemma try_except_raises_inv {A} (m : M A) h tr e tr' :
  try_except m h tr = (inl e, tr') →
  ∃ e0 tr1, m tr = (inl e0, tr1) ∧ h e0 tr1 = (inl e, tr').
Proof.
  unfold try_except. destruct (m tr) as [[e0|a] tr1]; [|discriminate].
  intros H. exists e0, tr1. split; [reflexivity|exact H].
Qed.

Lemma ValueError_not_PdfReadError msg :
  isinstance (mk_exc ValueError msg) PdfReadError = false.
Proof. reflexivity. Qed.

(** X1. [extract] never lets a [PdfReadError] out, and for a path that is
    no file it raises [FileNotFoundError] before anything is opened. *)
Theorem extract_error_kinds (w : World) (config : PDFExtractorConfig)
    (path : string) (tr tr' : list event) (e : exc) :
  extract w config path tr = (inl e, tr') →
  isinstance e PdfReadError = false ∧
  (os_path_isfile w path = false →
     e = mk_exc FileNotFoundError ("PDF file not found: " +:+ path) ∧ tr' = tr).
Proof.
  unfold extract. destruct (os_path_isfile w path); simpl.
  - intros H. split; [|discriminate].
    apply try_except_raises_inv in H as (e0 & tr1 & _ & H).
    destruct (isinstance e0 PdfReadError) eqn:He0; injection H as <- <-.
    + reflexivity.
    + exact He0.
  - intros [= <- <-]. split; [reflexivity|]. intros _. split; reflexivity.
Qed.

Lemma extract_error_kinds_witness :
  ∃ e tr',
    extract (pdf_world (inl corrupt) (inl refused) (inl no_connection))
      PDFExtractorConfig_default "/data/report.pdf" [] = (inl e, tr') ∧
    exc_type e = ValueError ∧
    isinstance e PdfReadError = false.
Proof.
  eexists _, _. split; [vm_compute; reflexivity|]. split; [reflexivity|].
  refine (proj1 (extract_error_kinds
            (pdf_world (inl corrupt) (inl refused) (inl no_connection))
            PDFExtractorConfig_default "/data/report.pdf" [] _ _ _)).
  vm_compute. reflexivity.
Defined.

(** The page loop stops at the first page whose text cannot be
    extracted, with the error of that page. *)
Lemma extract_pages_fails reader (ts : list string) :
  ∀ (a : nat) (len : Z) (text_content : list string) tr p e,
    (length ts < Z.to_nat len)%nat →
    (∀ k t, ts !! k = Some t →
       ∃ q, reader_pages reader !! (a + k)%nat = Some q ∧ extract_text q = inr t) →
    reader_pages reader !! (a + length ts)%nat = Some p →
    extract_text p = inl e →
    extract_pages reader (seqZ (Z.of_nat a) len) text_content tr = (inl e, tr).
Proof.
  induction ts as [|t ts IH]; intros a len acc tr p e Hlen Hpages Hp He.
  - simpl in Hlen, Hp. rewrite Nat.add_0_r in Hp.
    rewrite seqZ_cons by lia. simpl.
    erewrite bind_inr; [|unfold lift; rewrite (py_index_nonneg _ _ _ Hp); reflexivity].
    rewrite bind_run. unfold lift. rewrite He. reflexivity.
  - rewrite length_cons in Hlen, Hp. rewrite seqZ_cons by lia. simpl.
    destruct (Hpages 0%nat t eq_refl) as (q & Hq & Htext).
    rewrite Nat.add_0_r in Hq.
    erewrite bind_inr; [|unfold lift; rewrite (py_index_nonneg _ _ _ Hq); reflexivity].
    erewrite bind_inr; [|unfold lift; rewrite Htext; reflexivity].
    replace (Z.succ (Z.of_nat a)) with (Z.of_nat (S a)) by lia.
    apply (IH (S a) (Z.pred len) (acc ++ [t])%list tr p e).
    + lia.
    + intros k t' Hk. destruct (Hpages (S k) t' Hk) as (q' & Hq' & Ht').
      exists q'. split; [|exact Ht'].
      replace (S a + k)%nat with (a + S k)%nat by lia. exact Hq'.
    + replace (S a + length ts)%nat with (a + S (length ts))%nat by lia. exact Hp.
    + exact He.
Qed.

(** X2. When the pages of the range before some page yield their text
    and that page does not, [extract] fails with the page's error, a
    [PdfReadError] being reported as a [ValueError]; no partial text is
    returned. *)
Theorem extract_stops_at_failing_page (w : World) (config : PDFExtractorConfig)
    (path : string) (doc : PdfDocument) (ts : list string) (a b : Z)
    (p : PdfPage) (e : exc) (tr : list event) :
  os_path_isfile w path = true →
  PdfReader w path = inr doc →
  match page_range config with
  | Some (s, e) => (Z.max 0 s, Z.min (Z.of_nat (length (reader_pages doc))) e)
  | None => (0%Z, Z.of_nat (length (reader_pages doc)))
  end = (a, b) →
  (length ts < Z.to_nat (b - a))%nat →
  (∀ k t, ts !! k = Some t →
     ∃ q, reader_pages doc !! (Z.to_nat a + k)%nat = Some q ∧
          extract_text q = inr t) →
  reader_pages doc !! (Z.to_nat a + length ts)%nat = Some p →
  extract_text p = inl e →
  extract w config path tr
  = (inl (if isinstance e PdfReadError
          then mk_exc ValueError ("Invalid PDF file: " +:+ exc_str e)
          else e),
     (tr ++ [EvOpenPdf path])%list).
Proof.
  intros Hfile Hread Hbounds Hlen Hpages Hp He.
  assert (Ha : (0 ≤ a)%Z).
  { destruct (page_range config) as [[s e']|]; injection Hbounds as <- <-; lia. }
  unfold extract. rewrite Hfile. cbn [negb].
  match goal with
  | |- try_except ?m ?h ?t = _ =>
      assert (Hbody : m t = (inl e, (tr ++ [EvOpenPdf path])%list))
  end.
  { rewrite bind_run. unfold emit.
    erewrite bind_inr; [|unfold lift; rewrite Hread; reflexivity].
    cbv zeta. rewrite Hbounds. apply bind_inl. unfold range.
    replace a with (Z.of_nat (Z.to_nat a)) at 1 by lia.
    apply (extract_pages_fails doc ts (Z.to_nat a) (b - a) [] _ p e);
      assumption. }
  unfold try_except. rewrite Hbody.
  destruct (isinstance e PdfReadError); reflexivity.
Qed.

Lemma extract_stops_at_failing_page_witness :
  extract (pdf_world (inr torn_pdf) (inl refused) (inl no_connection))
    PDFExtractorConfig_default "/data/report.pdf" []
  = (inl (if isinstance corrupt PdfReadError
          then mk_exc ValueError ("Invalid PDF file: " +:+ exc_str corrupt)
          else corrupt),
     ([] ++ [EvOpenPdf "/data/report.pdf"])%list).
Proof.
  apply (extract_stops_at_failing_page
           (pdf_world (inr torn_pdf) (inl refused) (inl no_connection))
           PDFExtractorConfig_default "/data/report.pdf" torn_pdf
           ["Page one"] 0 3 {| extract_text := inl corrupt |} corrupt []).
  - reflexivity.
  - reflexivity.
  - reflexivity.
  - simpl. lia.
  - intros [|k] t Hk; [|destruct k; discriminate].
    injection Hk as <-. eexists. split; reflexivity.
  - reflexivity.
  - reflexivity.
Defined.

(** X3. Without a configured range, [extract] returns the texts of all
    the pages, in order, with two line feeds between consecutive ones
    and nothing before or after, together with the path it was given,
    the page count and the collected metadata; a document without pages
    gives the empty text and a single page its own text. *)
Theorem extract_whole_document (w : World) (config : PDFExtractorConfig)
    (path : string) (doc : PdfDocument) (texts : list string)
    (tr : list event) :
  os_path_isfile w path = true →
  PdfReader w path = inr doc →
  Forall2 (λ p t, extract_text p = inr t) (reader_pages doc) texts →
  page_range config = None →
  extract w config path tr
  = (inr {| er_text := String.concat (String "010" (String "010" "")) texts;
            er_path := path;
            er_pages := Z.of_nat (length texts);
            er_metadata := collect_metadata (reader_metadata doc) |},
     (tr ++ [EvOpenPdf path])%list) ∧
  (texts = [] → String.concat (String "010" (String "010" "")) texts = "") ∧
  (∀ t, texts = [t] → String.concat (String "010" (String "010" "")) texts = t).
Proof.
  intros Hfile Hread Hpages Hrange.
  pose proof (Forall2_length _ _ _ Hpages) as Hn.
  split; [|split; [intros ->; reflexivity|intros t ->; reflexivity]].
  change (String "010" (String "010" "")) with blank_line.
  rewrite <- (join_concat blank_line texts).
  unfold extract. rewrite Hfile. cbn [negb].
  apply try_except_returns.
  rewrite bind_run. unfold emit.
  erewrite bind_inr; [|unfold lift; rewrite Hread; reflexivity].
  rewrite Hrange, Hn.
  erewrite bind_inr; [reflexivity|].
  unfold range. change 0%Z with (Z.of_nat 0) at 1.
  rewrite (extract_pages_range doc texts); [reflexivity|lia|].
  intros k t Hk. simpl.
  destruct (Forall2_lookup_r _ _ _ _ _ Hpages Hk) as (p & Hp & Ht).
  exists p. split; [exact Hp|exact Ht].
Qed.

Lemma extract_whole_document_witness :
  ∃ r, extract local_world PDFExtractorConfig_default "report.pdf" []
       = (inr r, [EvOpenPdf "report.pdf"]) ∧
       er_pages r = 3%Z ∧
       er_path r = "report.pdf" ∧
       er_text r
       = "Page one" +:+ String "010" (String "010" "Page two")
         +:+ String "010" (String "010" "Page three").
Proof.
  eexists. split.
  - apply (extract_whole_document local_world PDFExtractorConfig_default
             "report.pdf" report_pdf ["Page one"; "Page two"; "Page three"] []).
    + reflexivity.
    + reflexivity.
    + repeat constructor.
    + reflexivity.
  - repeat split.
Defined.

(** ** The metadata loop *)

Lemma metadata_loop_snoc (m : gmap string string) items key v :
  foldl (λ metadata kv, <[strip_slash kv.1 := kv.2]> metadata) m
    (items ++ [(key, v)])
  = <[strip_slash key := v]>
      (foldl (λ metadata kv, <[strip_slash kv.1 := kv.2]> metadata) m items).
Proof. rewrite foldl_app. reflexivity. Qed.

Lemma metadata_loop_other (k : string) items :
  ∀ m : gmap string string,
    Forall (λ kv, strip_slash kv.1 ≠ k) items →
    foldl (λ metadata kv, <[strip_slash kv.1 := kv.2]> metadata) m items !! k
    = m !! k.
Proof.
  induction items as [|[key v] items IH]; intros m Hall; [reflexivity|].
  apply Forall_cons in Hall as [Hne Hall]. simpl.
  rewrite (IH _ Hall). apply lookup_insert_ne. exact Hne.
Qed.

Lemma metadata_loop_keys (k : string) items :
  ∀ m : gmap string string,
    is_Some (foldl (λ metadata kv, <[strip_slash kv.1 := kv.2]> metadata) m
               items !! k)
    ↔ is_Some (m !! k) ∨ ∃ kv, kv ∈ items ∧ strip_slash kv.1 = k.
Proof.
  induction items as [|[key v] items IH]; intros m; simpl.
  - split; [left; assumption|].
    intros [H|(kv & Hin & _)]; [exact H|]. by apply elem_of_nil in Hin.
  - rewrite IH. split.
    + intros [H|(kv & Hin & Hk)].
      * destruct (decide (strip_slash key = k)) as [Heq|Hne].
        -- right. exists (key, v). split; [apply list_elem_of_here|exact Heq].
        -- left. rewrite lookup_insert_ne in H by exact Hne. exact H.
      * right. exists kv. split; [apply list_elem_of_further; exact Hin|exact Hk].
    + intros [H|(kv & Hin & Hk)].
      * left. destruct (decide (strip_slash key = k)) as [Heq|Hne].
        -- rewrite Heq, lookup_insert_eq. eexists; reflexivity.
        -- rewrite lookup_insert_ne by exact Hne. exact H.
      * apply elem_of_cons in Hin as [->|Hin].
        -- left. simpl in Hk. rewrite Hk, lookup_insert_eq. eexists; reflexivity.
        -- right. exists kv. split; [exact Hin|exact Hk].
Qed.

(** X4. The metadata of an extraction has exactly the keys of the
    document information dictionary with one leading slash removed, and
    when several entries come to the same key the last one gives the
    value. *)
Theorem collect_metadata_entries (items : list (string * string)) :
  (∀ k, is_Some (collect_metadata (Some items) !! k)
        ↔ ∃ kv, kv ∈ items ∧ strip_slash kv.1 = k) ∧
  (∀ before key v after,
     items = (before ++ (key, v) :: after)%list →
     Forall (λ kv, strip_slash kv.1 ≠ strip_slash key) after →
     collect_metadata (Some items) !! strip_slash key = Some v).
Proof.
  unfold collect_metadata. split.
  - intros k. rewrite metadata_loop_keys. split.
    + intros [[x Hx]|H]; [rewrite lookup_empty in Hx; discriminate|exact H].
    + intros H. right. exact H.
  - intros before key v after -> Hafter.
    rewrite foldl_app. simpl.
    rewrite (metadata_loop_other _ _ _ Hafter). apply lookup_insert_eq.
Qed.

Lemma collect_metadata_entries_witness :
  collect_metadata (Some [("/Title", "Draft"); ("Author", "Ann"); ("Title", "Q1")])
    !! "Title" = Some "Q1" ∧
  collect_metadata (Some [("/Title", "Draft"); ("Author", "Ann"); ("Title", "Q1")])
    !! "/Title" = None.
Proof.
  split.
  - apply (proj2 (collect_metadata_entries
                    [("/Title", "Draft"); ("Author", "Ann"); ("Title", "Q1")])
             [("/Title", "Draft"); ("Author", "Ann")] "Title" "Q1" []).
    + reflexivity.
    + constructor.
  - apply eq_None_not_Some. intros H.
    apply (proj1 (collect_metadata_entries
                    [("/Title", "Draft"); ("Author", "Ann"); ("Title", "Q1")]))
      in H as (kv & Hin & Hk).
    repeat (apply elem_of_cons in Hin as [->|Hin]); try discriminate.
    by apply elem_of_nil in Hin.
Defined.

(** * Further properties of the adapters *)

#[local] Set Warnings "-clear-no-such-hyp".

Lemma truthy_int_false (o : option Z) :
  truthy_int o = false ↔ o = None ∨ o = Some 0%Z.
Proof.
  destruct o as [n|]; simpl.
  - rewrite negb_false_iff, Z.eqb_eq. split.
    + intros ->. right; reflexivity.
    + intros [H|H]; [discriminate|congruence].
  - split; [left; reflexivity|reflexivity].
Qed.

(** X5. The body posted to the local server always has [model],
    [prompt], [option] and [stream] (false), [option] carrying the
    request's [max_tokens] and temperature; [max_tokens] is repeated at
    the top level exactly when the request's value is neither missing nor
    zero. *)
Theorem ollama_payload_keys (request : LLMRequest) :
  ({["model"; "prompt"; "option"; "stream"]} : gset string)
    ⊆ dom (ollama_payload request) ∧
  dom (ollama_payload request)
    ⊆ ({["model"; "prompt"; "option"; "stream"; "max_tokens"]} : gset string) ∧
  ollama_payload request !! "stream" = Some (VBool false) ∧
  ollama_payload request !! "option"
    = Some (VDict {[ "max_tokens" := opt_int (rq_max_tokens request);
                     "temperature" := VFloat (rq_temperature request) ]}) ∧
  (ollama_payload request !! "max_tokens" = None
     ↔ rq_max_tokens request = None ∨ rq_max_tokens request = Some 0%Z) ∧
  (∀ v, ollama_payload request !! "max_tokens" = Some v →
        v = opt_int (rq_max_tokens request)).
Proof.
  unfold ollama_payload.
  destruct (truthy_int (rq_max_tokens request)) eqn:Htruthy.
  - repeat split.
    + rewrite !dom_insert_L, dom_singleton_L. set_solver.
    + rewrite !dom_insert_L, dom_singleton_L. set_solver.
    + rewrite lookup_insert_eq. discriminate.
    + intros H. apply truthy_int_false in H. congruence.
    + rewrite lookup_insert_eq. congruence.
  - repeat split.
    + rewrite !dom_insert_L, dom_singleton_L. set_solver.
    + rewrite !dom_insert_L, dom_singleton_L. set_solver.
    + intros _. apply truthy_int_false. exact Htruthy.
    + discriminate.
Qed.

Lemma ollama_generate_trace (w : World) (self : OllamaAdapter)
    (request : LLMRequest) (tr : list event) :
  (ollama_generate w self request tr).2
  = (tr ++ [EvHttpPost (base_url (ollama_config self) +:+ "/api/generate")
              (ollama_payload request)
              (ollama_timeout (ollama_config self))])%list.
Proof.
  destruct (httpx_post w (base_url (ollama_config self) +:+ "/api/generate")
              (ollama_payload request) (ollama_timeout (ollama_config self)))
    as [e|response] eqn:Hpost.
  { unfold ollama_generate, try_except. rewrite bind_run. unfold emit.
    rewrite bind_run. unfold lift at 1. rewrite Hpost.
    destruct (isinstance e RequestError); [reflexivity|].
    destruct (isinstance e JSONDecodeError); reflexivity. }
  destruct (raise_for_status response) as [e|] eqn:Hstatus.
  { unfold ollama_generate, try_except. rewrite bind_run. unfold emit.
    rewrite bind_run. unfold lift at 1. rewrite Hpost.
    rewrite bind_run. unfold lift at 1. rewrite Hstatus.
    destruct (isinstance e RequestError); [reflexivity|].
    destruct (isinstance e JSONDecodeError); reflexivity. }
  rewrite (ollama_generate_answered w self request tr response Hpost Hstatus).
  destruct (response_json response) as [e|body].
  { destruct (isinstance e RequestError); [reflexivity|].
    destruct (isinstance e JSONDecodeError); reflexivity. }
  destruct body as [| | | | |l|d]; try reflexivity.
  destruct (LLMResponse_new _ _ _ _); reflexivity.
Qed.

Lemma openai_generate_trace (w : World) (self : OpenAIAdapter)
    (request : LLMRequest) (tr : list event) :
  (openai_generate w self request tr).2
  = (tr ++ [EvChatCompletion (openai_call self request)])%list.
Proof.
  unfold openai_generate, try_except. rewrite bind_run. unfold emit.
  rewrite bind_run. unfold lift.
  destruct (chat_completions_create w (openai_call self request))
    as [e|response]; [reflexivity|].
  destruct (choices response); reflexivity.
Qed.

Lemma generate_trace (w : World) (a : llm_adapter) (request : LLMRequest)
    (tr : list event) :
  (generate w a request tr).2
  = (tr ++ [match a with
            | Ollama self =>
                EvHttpPost (base_url (ollama_config self) +:+ "/api/generate")
                  (ollama_payload request) (ollama_timeout (ollama_config self))
            | OpenAI self => EvChatCompletion (openai_call self request)
            end])%list.
Proof.
  destruct a as [self|self].
  - apply ollama_generate_trace.
  - apply openai_generate_trace.
Qed.

(** X6. Whatever its outcome, [generate] calls its client exactly once:
    one [client.post] to [/api/generate] under the configured base URL
    for the local adapter, one [client.chat.completions.create] for the
    cloud adapter. Neither adapter repeats its call; what the SDK client
    re-sends on its own is within that one call. *)
Theorem generate_makes_one_call (w : World) (a : llm_adapter)
    (request : LLMRequest) (tr : list event) :
  ∃ ev,
    (generate w a request tr).2 = (tr ++ [ev])%list ∧
    is_network_call ev = true ∧
    ev = match a with
         | Ollama self =>
             EvHttpPost (base_url (ollama_config self) +:+ "/api/generate")
               (ollama_payload request) (ollama_timeout (ollama_config self))
         | OpenAI self => EvChatCompletion (openai_call self request)
         end.
Proof.
  eexists. split; [apply generate_trace|]. split; [|reflexivity].
  destruct a; reflexivity.
Qed.

(** X7. An answer of the local server with an error status makes
    [generate] fail with the [HTTPStatusError] of [raise_for_status]
    itself, body unread; the HTTP endpoint answers such an error with
    500. *)
Theorem ollama_error_status_unchanged (w : World) (self : OllamaAdapter)
    (request : LLMRequest) (tr : list event) (response : HttpResponse)
    (e : exc) :
  httpx_post w (base_url (ollama_config self) +:+ "/api/generate")
    (ollama_payload request) (ollama_timeout (ollama_config self))
    = inr response →
  raise_for_status response = Some e →
  exc_type e = HTTPStatusError →
  (generate w self request tr).1 = inl e ∧
  status_code (http_error e) = 500%Z.
Proof.
  intros Hpost Hstatus Hclass. destruct e as [c msg]. simpl in Hclass. subst c.
  split; [|reflexivity].
  unfold generate, OllamaAdapter_port, ollama_generate, try_except.
  rewrite bind_run. unfold emit.
  rewrite bind_run. unfold lift at 1. rewrite Hpost.
  rewrite bind_run. unfold lift at 1. rewrite Hstatus. reflexivity.
Qed.

Lemma ollama_error_status_unchanged_witness :
  (generate bad_gateway_world (OllamaAdapter_init bad_gateway_world None)
     llama_request []).1
  = inl (mk_exc HTTPStatusError
           "Server error '502 Bad Gateway' for url 'http://localhost:11434/api/generate'") ∧
  status_code
    (http_error
       (mk_exc HTTPStatusError
          "Server error '502 Bad Gateway' for url 'http://localhost:11434/api/generate'"))
  = 500%Z.
Proof.
  apply (ollama_error_status_unchanged bad_gateway_world
           (OllamaAdapter_init bad_gateway_world None) llama_request []
           bad_gateway); reflexivity.
Defined.

(** X8. An answer that passes the status check and parses to anything but
    an object (a list, a string, a number, [null]) makes [generate] fail
    with an [AttributeError], which is no [ValueError]: the endpoint
    answers it with 500. *)
Theorem ollama_non_object_answer (w : World) (self : OllamaAdapter)
    (request : LLMRequest) (tr : list event) (response : HttpResponse)
    (body : pyval) :
  httpx_post w (base_url (ollama_config self) +:+ "/api/generate")
    (ollama_payload request) (ollama_timeout (ollama_config self))
    = inr response →
  raise_for_status response = None →
  response_json response = inr body →
  (∀ d, body ≠ VDict d) →
  ∃ e, (generate w self request tr).1 = inl e ∧
       exc_type e = AttributeError ∧
       isinstance e ValueError = false ∧
       status_code (http_error e) = 500%Z.
Proof.
  intros Hpost Hstatus Hjson Hbody.
  exists (mk_exc AttributeError
            ("'" +:+ type_name body +:+ "' object has no attribute 'get'")).
  split; [|repeat split].
  unfold generate, OllamaAdapter_port.
  rewrite (ollama_generate_answered w self request tr response Hpost Hstatus).
  rewrite Hjson. destruct body as [| | | | |l|d]; try reflexivity.
  destruct (Hbody d eq_refl).
Qed.

Lemma ollama_non_object_answer_witness :
  ∃ e, (generate (stub_world (inr (ok_response (VList []))) (inl no_connection))
          (OllamaAdapter_init local_world None) llama_request []).1 = inl e ∧
       exc_type e = AttributeError ∧
       isinstance e ValueError = false ∧
       status_code (http_error e) = 500%Z.
Proof.
  apply (ollama_non_object_answer
           (stub_world (inr (ok_response (VList []))) (inl no_connection))
           (OllamaAdapter_init local_world None) llama_request []
           (ok_response (VList [])) (VList [])); try reflexivity.
  intros d. discriminate.
Defined.

(** X9. Every failure of the cloud adapter's [generate] is a
    [ValueError] whose message starts with [Error with OpenAI API: ],
    whatever the client raised (a connection failure included), so the
    endpoint answers it with 400; a completion without choices is
    reported in the same way. *)
Theorem openai_generate_errors (w : World) (self : OpenAIAdapter)
    (request : LLMRequest) (tr tr' : list event) (e : exc) :
  generate w self request tr = (inl e, tr') →
  exc_type e = ValueError ∧
  status_code (http_error e) = 400%Z ∧
  ((∃ cause, chat_completions_create w (openai_call self request) = inl cause ∧
             exc_str e = "Error with OpenAI API: " +:+ exc_str cause) ∨
   (∃ response, chat_completions_create w (openai_call self request)
                  = inr response ∧
                choices response = [] ∧
                exc_str e = "Error with OpenAI API: No choices in OpenAI response")).
Proof.
  unfold generate, OpenAIAdapter_port, openai_generate, try_except.
  rewrite bind_run. unfold emit. rewrite bind_run. unfold lift.
  destruct (chat_completions_create w (openai_call self request))
    as [cause|response] eqn:Hcall.
  - intros [= <- _]. repeat split. left. exists cause. split; reflexivity.
  - destruct (choices response) as [|first rest] eqn:Hchoices; [|discriminate].
    intros [= <- _]. repeat split. right. exists response. repeat split.
    exact Hchoices.
Qed.

Lemma openai_generate_errors_witness :
  ∃ e tr',
    generate unreachable_world
      {| openai_config := OpenAIConfig_new unreachable_world (Some "sk-test") |}
      llama_request [] = (inl e, tr') ∧
    exc_type e = ValueError ∧
    status_code (http_error e) = 400%Z ∧
    exc_str e = "Error with OpenAI API: Connection error.".
Proof.
  eexists _, _. split; [vm_compute; reflexivity|].
  destruct (openai_generate_errors unreachable_world
              {| openai_config := OpenAIConfig_new unreachable_world (Some "sk-test") |}
              llama_request [] _ _ eq_refl) as (Hclass & Hstatus & _).
  split; [exact Hclass|]. split; [exact Hstatus|reflexivity].
Defined.

Lemma openai_metadata_dom (response : ChatCompletion) (first : Choice) :
  dom (openai_metadata response first)
  = ({["model_name"; "prompt_tokens"; "completion_tokens"; "total_tokens";
       "finish_reason"]} : gset string).
Proof.
  unfold openai_metadata. rewrite !dom_insert_L, dom_singleton_L. set_solver.
Qed.

(** X10. A response of the cloud adapter is built from the first choice
    of the completion: its text is the choice's content, the empty string
    when there is none; its metadata has exactly the keys [model_name],
    [prompt_tokens], [completion_tokens], [total_tokens] and
    [finish_reason], the three counts being those of [usage], or zero
    when the completion has no usage. *)
Theorem openai_generate_response (w : World) (self : OpenAIAdapter)
    (request : LLMRequest) (tr tr' : list event) (resp : LLMResponse) :
  generate w self request tr = (inr resp, tr') →
  ∃ response first,
    chat_completions_create w (openai_call self request) = inr response ∧
    head (choices response) = Some first ∧
    rs_text resp = default "" (message_content first) ∧
    dom (rs_metadata resp)
      = ({["model_name"; "prompt_tokens"; "completion_tokens"; "total_tokens";
           "finish_reason"]} : gset string) ∧
    rs_metadata resp !! "finish_reason" = Some (VStr (finish_reason first)) ∧
    (usage response = None →
       rs_metadata resp !! "prompt_tokens" = Some (VInt 0) ∧
       rs_metadata resp !! "completion_tokens" = Some (VInt 0) ∧
       rs_metadata resp !! "total_tokens" = Some (VInt 0)) ∧
    (∀ u, usage response = Some u →
       rs_metadata resp !! "prompt_tokens" = Some (VInt (prompt_tokens u)) ∧
       rs_metadata resp !! "completion_tokens"
         = Some (VInt (completion_tokens u)) ∧
       rs_metadata resp !! "total_tokens" = Some (VInt (total_tokens u))).
Proof.
  unfold generate, OpenAIAdapter_port. intros H.
  apply openai_generate_returns_inv in H
    as (response & first & rest & Hcall & Hchoices & ->).
  exists response, first. simpl.
  split; [exact Hcall|]. split; [rewrite Hchoices; reflexivity|].
  split; [reflexivity|]. split; [apply openai_metadata_dom|].
  unfold openai_metadata. split; [reflexivity|]. split.
  - intros ->. repeat split.
  - intros u ->. repeat split.
Qed.

Lemma openai_generate_response_witness :
  ∃ resp tr',
    generate local_world
      {| openai_config := OpenAIConfig_new local_world (Some "sk-test") |}
      llama_request [] = (inr resp, tr') ∧
    rs_text resp = "Summary text" ∧
    rs_metadata resp !! "total_tokens" = Some (VInt 0).
Proof.
  eexists _, _. split; [vm_compute; reflexivity|].
  destruct (openai_generate_response local_world
              {| openai_config := OpenAIConfig_new local_world (Some "sk-test") |}
              llama_request [] _ _ eq_refl)
    as (response & first & Hcall & Hfirst & Htext & _ & _ & Hzero & _).
  injection Hcall as <-. injection Hfirst as <-.
  split; [exact Htext|]. apply (Hzero eq_refl).
Defined.

(** X11. The one completion the cloud adapter asks for carries the
    adapter's key and the request's model and temperature, the fixed
    system message followed by the prompt as the user message, and a
    token cap that is the request's, or 1024 when the request has none or
    has zero; the cap is never zero. *)
Theorem openai_call_arguments (w : World) (self : OpenAIAdapter)
    (request : LLMRequest) (tr : list event) :
  ∃ call,
    (generate w self request tr).2 = (tr ++ [EvChatCompletion call])%list ∧
    call_api_key call = api_key (openai_config self) ∧
    call_model call = rq_model request ∧
    call_temperature call = rq_temperature request ∧
    call_messages call = [("system", "You are a helpful assistant.");
                          ("user", rq_prompt request)] ∧
    (rq_max_tokens request = None ∨ rq_max_tokens request = Some 0%Z →
       call_max_tokens call = 1024%Z) ∧
    (∀ n, rq_max_tokens request = Some n → n ≠ 0%Z → call_max_tokens call = n) ∧
    call_max_tokens call ≠ 0%Z.
Proof.
  exists (openai_call self request).
  split; [apply openai_generate_trace|]. simpl. repeat split.
  - intros H. apply truthy_int_false in H. rewrite H. reflexivity.
  - intros n -> Hn. simpl.
    destruct (Z.eqb_spec n 0); [contradiction|reflexivity].
  - destruct (rq_max_tokens request) as [n|]; simpl; [|discriminate].
    destruct (Z.eqb_spec n 0); simpl; [discriminate|assumption].
Qed.

(** X12. Built without a configuration, the cloud adapter takes its key
    from [OPENAI_API_KEY]: construction succeeds exactly when the
    variable is set to a non-empty value, and that value is the
    adapter's key. *)
Theorem OpenAIAdapter_init_from_environment (w : World) :
  (∀ a, OpenAIAdapter_init w None = inr a →
        os_environ w !! "OPENAI_API_KEY" = Some (api_key (openai_config a)) ∧
        api_key (openai_config a) ≠ "") ∧
  (∀ k, os_environ w !! "OPENAI_API_KEY" = Some k → k ≠ "" →
        ∃ a, OpenAIAdapter_init w None = inr a ∧ api_key (openai_config a) = k) ∧
  (os_environ w !! "OPENAI_API_KEY" = None ∨
   os_environ w !! "OPENAI_API_KEY" = Some "" →
     ∃ msg, OpenAIAdapter_init w None = inl (mk_exc ValueError msg)).
Proof.
  unfold OpenAIAdapter_init, OpenAIConfig_new, dict_get. simpl.
  destruct (os_environ w !! "OPENAI_API_KEY") as [k|] eqn:Henv; simpl.
  - destruct (bool_decide (k = "")) eqn:Hk.
    + apply bool_decide_eq_true in Hk. subst k.
      split; [intros a; discriminate|]. split.
      * intros k [= <-] Hne. contradiction.
      * intros _. eexists. reflexivity.
    + apply bool_decide_eq_false in Hk. split; [|split].
      * intros a [= <-]. simpl. split; [reflexivity|exact Hk].
      * intros k' [= <-] _. eexists. split; reflexivity.
      * intros [H|H]; [discriminate|congruence].
  - split; [intros a; discriminate|]. split.
    + intros k; discriminate.
    + intros _. eexists. reflexivity.
Qed.

(** * Further properties of the orchestrator *)

(** A successful extraction found the file, opened it once, and reports
    what the reader gave. *)
Lemma extract_returns_inv (w : World) (config : PDFExtractorConfig)
    (path : string) (tr tr1 : list event) (r : PDFExtractResult) :
  extract w config path tr = (inr r, tr1) →
  os_path_isfile w path = true ∧
  tr1 = (tr ++ [EvOpenPdf path])%list ∧
  ∃ doc, PdfReader w path = inr doc ∧
         er_path r = path ∧
         er_pages r = Z.of_nat (length (reader_pages doc)) ∧
         er_metadata r = collect_metadata (reader_metadata doc).
Proof.
  intros H.
  pose proof (extract_trace w config path tr) as Htrace. rewrite H in Htrace.
  simpl in Htrace. revert H. unfold extract.
  destruct (os_path_isfile w path); cbn [negb]; [|discriminate].
  intros H. split; [reflexivity|].
  unfold try_except in H. rewrite bind_run in H. unfold emit in H.
  rewrite bind_run in H. unfold lift at 1 in H.
  destruct (PdfReader w path) as [e|doc].
  { destruct (isinstance e PdfReadError); discriminate. }
  cbv zeta in H.
  destruct (match page_range config with
            | Some (s, e) =>
                (Z.max 0 s, Z.min (Z.of_nat (length (reader_pages doc))) e)
            | None => (0%Z, Z.of_nat (length (reader_pages doc)))
            end) as [a b].
  rewrite bind_run in H.
  pose proof (extract_pages_trace doc (range a b) []
                (tr ++ [EvOpenPdf path])%list) as Hloop.
  destruct (extract_pages doc (range a b) [] (tr ++ [EvOpenPdf path])%list)
    as [[e|ts] tr2]; simpl in Hloop; subst tr2.
  { destruct (isinstance e PdfReadError); discriminate. }
  injection H as <- <-. split; [reflexivity|].
  exists doc. repeat split.
Qed.

Lemma get_llm_adapter_trace (w : World) (request : SummaryRequest)
    (tr : list event) :
  (_get_llm_adapter w request tr).2 = tr.
Proof.
  unfold _get_llm_adapter.
  destruct (bool_decide (lower (provider request) = "ollama")); [reflexivity|].
  destruct (bool_decide (lower (provider request) = "openai")); [|reflexivity].
  destruct (truthy_str (openai_api_key request)); [|reflexivity].
  cbn [negb]. rewrite bind_run. unfold lift.
  destruct (OpenAIAdapter_init w _); reflexivity.
Qed.

Lemma get_llm_adapter_returns (w : World) (request : SummaryRequest)
    (tr tr' : list event) (a : llm_adapter) :
  _get_llm_adapter w request tr = (inr a, tr') →
  tr' = tr ∧
  (lower (provider request) = "ollama" ∧ a = Ollama (OllamaAdapter_init w None) ∨
   lower (provider request) = "openai" ∧
   ∃ key, openai_api_key request = Some key ∧ key ≠ "" ∧
          a = OpenAI {| openai_config := OpenAIConfig_new w (Some key) |}).
Proof.
  intros H.
  pose proof (get_llm_adapter_trace w request tr) as Htrace.
  rewrite H in Htrace. simpl in Htrace. split; [exact Htrace|].
  revert H. unfold _get_llm_adapter.
  destruct (bool_decide (lower (provider request) = "ollama")) eqn:Hollama.
  { apply bool_decide_eq_true in Hollama. intros [= <- _].
    left. split; [exact Hollama|reflexivity]. }
  destruct (bool_decide (lower (provider request) = "openai")) eqn:Hopenai;
    [|discriminate].
  apply bool_decide_eq_true in Hopenai.
  destruct (openai_api_key request) as [key|]; simpl; [|discriminate].
  destruct (bool_decide (key = "")) eqn:Hkey; simpl; [discriminate|].
  apply bool_decide_eq_false in Hkey.
  rewrite bind_run. unfold lift.
  rewrite (OpenAIAdapter_init_key w key Hkey). intros [= <- _].
  right. split; [exact Hopenai|]. exists key. repeat split. exact Hkey.
Qed.

(** X13. A successful [summarize] names in its response the path, the
    provider (as given, not lower-cased) and the model of the request,
    for a path that is a file and a provider that lower-cases to [ollama]
    or [openai]; it has opened the PDF and then called the client of the
    selected adapter exactly once, and nothing else. *)
Theorem summarize_success_shape (w : World) (request : SummaryRequest)
    (tr tr' : list event) (resp : SummaryResponse) :
  summarize w request tr = (inr resp, tr') →
  sr_pdf_path resp = pdf_path request ∧
  sr_provider resp = provider request ∧
  sr_model resp = model request ∧
  os_path_isfile w (pdf_path request) = true ∧
  (lower (provider request) = "ollama" ∨ lower (provider request) = "openai") ∧
  ∃ ev, tr' = (tr ++ [EvOpenPdf (pdf_path request); ev])%list ∧
        is_network_call ev = true.
Proof.
  rewrite summarize_unfold. unfold summarize_steps. intros H.
  apply bind_returns in H as (r & tr1 & Hextract & H).
  apply bind_returns in H as (a & tr2 & Hadapter & H).
  apply bind_returns in H as (lr & tr3 & Hgenerate & H).
  injection H as <- <-.
  apply extract_returns_inv in Hextract as (Hfile & -> & _).
  apply get_llm_adapter_returns in Hadapter as (-> & Hprovider).
  pose proof (generate_trace w a (llm_request_of request r)
                (tr ++ [EvOpenPdf (pdf_path request)])%list) as Htrace.
  rewrite Hgenerate in Htrace. simpl in Htrace.
  repeat split; try reflexivity; try assumption.
  - destruct Hprovider as [[H _]|[H _]]; [left|right]; exact H.
  - match type of Htrace with _ = (_ ++ [?ev])%list => exists ev end.
    split; [rewrite Htrace, <- app_assoc; reflexivity|].
    destruct a; reflexivity.
Qed.

Lemma summarize_success_shape_witness :
  ∃ resp tr',
    summarize local_world (report_request "Ollama" None) [] = (inr resp, tr') ∧
    sr_provider resp = "Ollama" ∧
    ∃ ev, tr' = ([] ++ [EvOpenPdf "report.pdf"; ev])%list ∧
          is_network_call ev = true.
Proof.
  eexists _, _. split; [vm_compute; reflexivity|].
  destruct (summarize_success_shape local_world (report_request "Ollama" None)
              [] _ _ eq_refl) as (_ & Hprovider & _ & _ & _ & Hcalls).
  split; [exact Hprovider|exact Hcalls].
Defined.

(** X14. Whatever its outcome, [summarize] adds to the trace nothing, or
    the opening of the PDF, or that opening followed by one call of the
    selected adapter's client: no client is called before the PDF has
    been read, and [summarize] never calls one a second time. *)
Theorem summarize_calls (w : World) (request : SummaryRequest)
    (tr : list event) :
  (summarize w request tr).2 = tr ∨
  (summarize w request tr).2 = (tr ++ [EvOpenPdf (pdf_path request)])%list ∨
  ∃ ev, (summarize w request tr).2
        = (tr ++ [EvOpenPdf (pdf_path request); ev])%list ∧
        is_network_call ev = true.
Proof.
  rewrite summarize_unfold. unfold summarize_steps. rewrite bind_run.
  pose proof (extract_trace w PDFExtractorConfig_default (pdf_path request) tr)
    as Hextract.
  destruct (extract w PDFExtractorConfig_default (pdf_path request) tr)
    as [[e|r] tr1] eqn:Hrun; simpl in Hextract.
  { destruct Hextract as [-> | ->]; [left|right; left]; reflexivity. }
  apply extract_returns_inv in Hrun as (_ & -> & _). clear Hextract.
  rewrite bind_run.
  pose proof (get_llm_adapter_trace w request
                (tr ++ [EvOpenPdf (pdf_path request)])%list) as Hadapter.
  destruct (_get_llm_adapter w request (tr ++ [EvOpenPdf (pdf_path request)])%list)
    as [[e|a] tr2]; simpl in Hadapter; subst tr2.
  { right; left; reflexivity. }
  rewrite bind_run.
  pose proof (generate_trace w a (llm_request_of request r)
                (tr ++ [EvOpenPdf (pdf_path request)])%list) as Hgen.
  right; right.
  match type of Hgen with _ = (_ ++ [?ev])%list => exists ev end.
  split; [|destruct a; reflexivity].
  destruct (generate w a (llm_request_of request r)
              (tr ++ [EvOpenPdf (pdf_path request)])%list) as [[e|lr] tr3];
    simpl in Hgen; subst tr3; simpl; rewrite <- app_assoc; reflexivity.
Qed.

(** X15. The steps fail in their order: a path that is no file gives
    [FileNotFoundError] with nothing opened, whatever the provider and
    the key; and a provider that is neither [ollama] nor [openai] is
    only rejected, with a [ValueError] naming it, once the PDF has been
    read. *)
Theorem summarize_failure_order (w : World) (request : SummaryRequest)
    (tr : list event) :
  (os_path_isfile w (pdf_path request) = false →
     summarize w request tr
     = (inl (mk_exc FileNotFoundError
               ("PDF file not found: " +:+ pdf_path request)), tr)) ∧
  (lower (provider request) ≠ "ollama" →
   lower (provider request) ≠ "openai" →
   ∀ pdf_result tr1,
     extract w PDFExtractorConfig_default (pdf_path request) tr
       = (inr pdf_result, tr1) →
     summarize w request tr
     = (inl (mk_exc ValueError ("Unsupported provider: " +:+ provider request)),
        (tr ++ [EvOpenPdf (pdf_path request)])%list)).
Proof.
  split.
  - intros Hfile. rewrite summarize_unfold. unfold summarize_steps.
    apply bind_inl. unfold extract. rewrite Hfile. reflexivity.
  - intros H1 H2 r tr1 Hextract.
    rewrite summarize_unfold. unfold summarize_steps.
    rewrite (bind_inr _ _ _ _ _ Hextract).
    apply extract_returns_inv in Hextract as (_ & -> & _).
    apply bind_inl. unfold _get_llm_adapter.
    rewrite !bool_decide_eq_false_2 by assumption. reflexivity.
Qed.

Lemma summarize_failure_order_witness :
  summarize local_world
    {| pdf_path := "missing.pdf"; provider := "mistral"; model := "m";
       temperature := 0.7%Q; max_tokens := None; openai_api_key := None |} []
  = (inl (mk_exc FileNotFoundError "PDF file not found: missing.pdf"), []) ∧
  summarize local_world (report_request "mistral" None) []
  = (inl (mk_exc ValueError "Unsupported provider: mistral"),
     ([] ++ [EvOpenPdf "report.pdf"])%list).
Proof.
  split.
  - apply (proj1 (summarize_failure_order local_world
             {| pdf_path := "missing.pdf"; provider := "mistral"; model := "m";
                temperature := 0.7%Q; max_tokens := None;
                openai_api_key := None |} [])). reflexivity.
  - eapply (proj2 (summarize_failure_order local_world
              (report_request "mistral" None) [])); try discriminate.
    vm_compute. reflexivity.
Defined.

(** X16. With a provider that lower-cases to [ollama] and a PDF that
    extracts, [summarize] posts to [/api/generate] under
    [OLLAMA_API_URL], or under [http://localhost:11434] when the variable
    is not set, with the timeout of [OLLAMA_TIMEOUT] or 60; the body names
    the request's model and carries the prompt built from the extraction
    result. *)
Theorem summarize_local_call (w : World) (request : SummaryRequest)
    (tr tr1 : list event) (pdf_result : PDFExtractResult) :
  lower (provider request) = "ollama" →
  extract w PDFExtractorConfig_default (pdf_path request) tr
    = (inr pdf_result, tr1) →
  ∃ payload,
    (summarize w request tr).2
    = (tr ++ [EvOpenPdf (pdf_path request);
              EvHttpPost
                (default "http://localhost:11434"
                   (os_environ w !! "OLLAMA_API_URL") +:+ "/api/generate")
                payload (default 60%Z (env_OLLAMA_TIMEOUT w))])%list ∧
    payload !! "model" = Some (VStr (model request)) ∧
    payload !! "prompt" = Some (VStr (_create_summary_prompt pdf_result)).
Proof.
  intros Hprovider Hextract.
  exists (ollama_payload (llm_request_of request pdf_result)). split.
  - rewrite summarize_unfold. unfold summarize_steps.
    rewrite (bind_inr _ _ _ _ _ Hextract).
    apply extract_returns_inv in Hextract as (_ & -> & _).
    erewrite bind_inr.
    2:{ unfold _get_llm_adapter.
        rewrite bool_decide_eq_true_2 by exact Hprovider. reflexivity. }
    rewrite bind_run.
    pose proof (generate_trace w (Ollama (OllamaAdapter_init w None))
                  (llm_request_of request pdf_result)
                  (tr ++ [EvOpenPdf (pdf_path request)])%list) as Hgen.
    destruct (generate w (Ollama (OllamaAdapter_init w None))
                (llm_request_of request pdf_result)
                (tr ++ [EvOpenPdf (pdf_path request)])%list) as [[e|lr] tr3];
      simpl in Hgen; subst tr3; simpl; rewrite <- app_assoc; reflexivity.
  - unfold ollama_payload.
    destruct (truthy_int (rq_max_tokens (llm_request_of request pdf_result)));
      split; reflexivity.
Qed.

Lemma summarize_local_call_witness :
  ∃ payload,
    (summarize unreachable_world (report_request "OLLAMA" None) []).2
    = ([] ++ [EvOpenPdf "report.pdf";
              EvHttpPost
                (default "http://localhost:11434"
                   (os_environ unreachable_world !! "OLLAMA_API_URL")
                 +:+ "/api/generate")
                payload (default 60%Z (env_OLLAMA_TIMEOUT unreachable_world))])%list ∧
    payload !! "model" = Some (VStr "llama2") ∧
    payload !! "prompt"
      = Some (VStr (_create_summary_prompt
                      {| er_text := join blank_line
                                      ["Page one"; "Page two"; "Page three"];
                         er_path := "report.pdf"; er_pages := 3;
                         er_metadata :=
                           collect_metadata (reader_metadata report_pdf) |})).
Proof.
  apply (summarize_local_call unreachable_world (report_request "OLLAMA" None)
           [] [EvOpenPdf "report.pdf"]).
  - reflexivity.
  - vm_compute. reflexivity.
Defined.

Lemma summarize_cloud_trace (w : World) (request : SummaryRequest)
    (tr tr1 : list event) (pdf_result : PDFExtractResult) (key : string) :
  lower (provider request) = "openai" →
  openai_api_key request = Some key →
  key ≠ "" →
  extract w PDFExtractorConfig_default (pdf_path request) tr
    = (inr pdf_result, tr1) →
  (summarize w request tr).2
  = (tr ++ [EvOpenPdf (pdf_path request);
            EvChatCompletion
              (openai_call {| openai_config := OpenAIConfig_new w (Some key) |}
                 (llm_request_of request pdf_result))])%list.
Proof.
  intros Hprovider Hkey Hne Hextract.
  rewrite summarize_unfold. unfold summarize_steps.
  rewrite (bind_inr _ _ _ _ _ Hextract).
  apply extract_returns_inv in Hextract as (_ & -> & _).
  erewrite bind_inr.
  2:{ rewrite (get_llm_adapter_openai w request _ Hprovider), Hkey. simpl.
      rewrite bool_decide_eq_false_2 by exact Hne. reflexivity. }
  rewrite bind_run.
  pose proof (generate_trace w
                (OpenAI {| openai_config := OpenAIConfig_new w (Some key) |})
                (llm_request_of request pdf_result)
                (tr ++ [EvOpenPdf (pdf_path request)])%list) as Hgen.
  destruct (generate w _ (llm_request_of request pdf_result)
              (tr ++ [EvOpenPdf (pdf_path request)])%list) as [[e|lr] tr3];
    simpl in Hgen; subst tr3; simpl; rewrite <- app_assoc; reflexivity.
Qed.

(** X17. With a provider that lower-cases to [openai], a non-empty key
    and a PDF that extracts, the completion [summarize] asks for is made
    with the key of the request (not with [OPENAI_API_KEY]), for the
    request's model, the prompt built from the extraction result being
    the user message. *)
Theorem summarize_cloud_call (w : World) (request : SummaryRequest)
    (tr tr1 : list event) (pdf_result : PDFExtractResult) (key : string) :
  lower (provider request) = "openai" →
  openai_api_key request = Some key →
  key ≠ "" →
  extract w PDFExtractorConfig_default (pdf_path request) tr
    = (inr pdf_result, tr1) →
  ∃ call,
    (summarize w request tr).2
    = (tr ++ [EvOpenPdf (pdf_path request); EvChatCompletion call])%list ∧
    call_api_key call = key ∧
    call_model call = model request ∧
    call_messages call = [("system", "You are a helpful assistant.");
                          ("user", _create_summary_prompt pdf_result)].
Proof.
  intros Hprovider Hkey Hne Hextract.
  exists (openai_call {| openai_config := OpenAIConfig_new w (Some key) |}
            (llm_request_of request pdf_result)).
  split; [|repeat split].
  apply (summarize_cloud_trace w request tr tr1 pdf_result key); assumption.
Qed.

Lemma summarize_cloud_call_witness :
  ∃ call,
    (summarize (pdf_world (inr report_pdf) (inl refused) (inr gpt_completion))
       {| pdf_path := "/data/report.pdf"; provider := "OpenAI"; model := "gpt-4o";
          temperature := 0.7%Q; max_tokens := None;
          openai_api_key := Some "sk-form" |} []).2
    = ([] ++ [EvOpenPdf "/data/report.pdf"; EvChatCompletion call])%list ∧
    call_api_key call = "sk-form" ∧
    call_model call = "gpt-4o" ∧
    call_messages call
      = [("system", "You are a helpful assistant.");
         ("user", _create_summary_prompt
                    {| er_text := join blank_line
                                    ["Page one"; "Page two"; "Page three"];
                       er_path := "/data/report.pdf"; er_pages := 3;
                       er_metadata :=
                         collect_metadata (reader_metadata report_pdf) |})].
Proof.
  apply (summarize_cloud_call
           (pdf_world (inr report_pdf) (inl refused) (inr gpt_completion))
           {| pdf_path := "/data/report.pdf"; provider := "OpenAI";
              model := "gpt-4o"; temperature := 0.7%Q; max_tokens := None;
              openai_api_key := Some "sk-form" |}
           [] [EvOpenPdf "/data/report.pdf"]).
  - reflexivity.
  - reflexivity.
  - discriminate.
  - vm_compute. reflexivity.
Defined.

(** * Further properties of the HTTP endpoint *)

(** The request the endpoint hands to [summarize]. *)
Lemma summarize_pdf_unfold (w : World) (file : UploadFile)
    (provider model : string) (temperature : Q) (max_tokens : option Z)
    (key : option string) (tr : list event) :
  endswith (lower (filename file)) ".pdf" = true →
  summarize_pdf w file provider model temperature max_tokens key tr
  = match save_upload w file tr with
    | (inl e, tr1) => (inl (http_error e), tr1)
    | (inr temp_path, tr1) =>
        match summarize w
                {| pdf_path := temp_path; provider := provider; model := model;
                   temperature := temperature; max_tokens := max_tokens;
                   openai_api_key :=
                     if truthy_str key then key
                     else os_environ w !! "OPENAI_API_KEY" |} tr1 with
        | (inr response, tr2) =>
            (inr {| api_summary := summary response;
                    api_filename := filename file;
                    api_provider := sr_provider response;
                    api_model := sr_model response;
                    api_metadata := sr_metadata response |},
             cleanup w (Some temp_path) tr2)
        | (inl e, tr2) => (inl (http_error e), cleanup w (Some temp_path) tr2)
        end
    end.
Proof.
  intros Hname. unfold summarize_pdf, summarize_pdf_body. rewrite Hname.
  cbn [negb]. destruct (save_upload w file tr) as [[e|p] tr1]; [reflexivity|].
  destruct (summarize w _ tr1) as [[e|response] tr2]; reflexivity.
Qed.

Lemma save_upload_returns (w : World) (file : UploadFile)
    (tr tr1 : list event) (p : string) :
  save_upload w file tr = (inr p, tr1) →
  NamedTemporaryFile w = inr p ∧
  ∃ content, file_read file = inr content ∧
             temp_file_write w p content = None ∧
             tr1 = (tr ++ [EvTempFile; EvWrite p content])%list.
Proof.
  unfold save_upload. rewrite bind_run. unfold emit.
  rewrite bind_run. unfold lift at 1.
  destruct (NamedTemporaryFile w) as [e|p']; [discriminate|].
  rewrite bind_run. unfold lift at 1.
  destruct (file_read file) as [e|content]; [discriminate|].
  rewrite bind_run. rewrite bind_run. unfold lift.
  destruct (temp_file_write w p' content) as [e|] eqn:Hwrite; [discriminate|].
  intros [= <- <-]. split; [reflexivity|].
  exists content. repeat split. { exact Hwrite. }
  rewrite <- app_assoc. reflexivity.
Qed.

(** X18. Once the upload has been saved under a name that exists when the
    request ends, removing that file is the last thing the endpoint does,
    whether [summarize] succeeded or failed; the PDF that [summarize] is
    asked to read is that temporary file. *)
Theorem summarize_pdf_removes_upload (w : World) (file : UploadFile)
    (provider model : string) (temperature : Q) (max_tokens : option Z)
    (key : option string) (tr tr1 : list event) (temp_path : string) :
  endswith (lower (filename file)) ".pdf" = true →
  save_upload w file tr = (inr temp_path, tr1) →
  temp_path ≠ "" →
  os_path_exists w temp_path = true →
  ∃ request,
    pdf_path request = temp_path ∧
    (summarize_pdf w file provider model temperature max_tokens key tr).2
    = ((summarize w request tr1).2 ++ [EvUnlink temp_path])%list.
Proof.
  intros Hname Hsave Hpath Hexists.
  exists {| pdf_path := temp_path; provider := provider; model := model;
            temperature := temperature; max_tokens := max_tokens;
            openai_api_key :=
              if truthy_str key then key
              else os_environ w !! "OPENAI_API_KEY" |}.
  split; [reflexivity|].
  rewrite (summarize_pdf_unfold _ _ _ _ _ _ _ _ Hname), Hsave.
  destruct (summarize w _ tr1) as [[e|response] tr2]; simpl;
    rewrite bool_decide_eq_false_2 by exact Hpath; rewrite Hexists;
    reflexivity.
Qed.

Lemma summarize_pdf_removes_upload_witness :
  ∃ request,
    pdf_path request = "report.pdf" ∧
    (summarize_pdf unreachable_world
       {| filename := "Q1.pdf"; file_read := inr [] |}
       "ollama" "llama2" 0.7%Q None None []).2
    = ((summarize unreachable_world request ([] ++ [EvTempFile; EvWrite "report.pdf" []])).2
         ++ [EvUnlink "report.pdf"])%list.
Proof.
  apply (summarize_pdf_removes_upload unreachable_world
           {| filename := "Q1.pdf"; file_read := inr [] |}
           "ollama" "llama2" 0.7%Q None None []).
  - reflexivity.
  - reflexivity.
  - discriminate.
  - reflexivity.
Defined.



Lemma summarize_returns_inv (w : World) (request : SummaryRequest)
    (tr tr' : list event) (resp : SummaryResponse) :
  summarize w request tr = (inr resp, tr') →
  ∃ pdf_result llm_response,
    resp = {| summary := rs_text llm_response;
              sr_pdf_path := pdf_path request;
              sr_provider := provider request;
              sr_model := model request;
              sr_metadata := summary_metadata pdf_result llm_response |}.
Proof.
  rewrite summarize_unfold. unfold summarize_steps. intros H.
  apply bind_returns in H as (r & tr1 & _ & H).
  apply bind_returns in H as (a & tr2 & _ & H).
  apply bind_returns in H as (lr & tr3 & _ & H).
  injection H as <- <-. exists r, lr. reflexivity.
Qed.

(** X20. A successful answer of the endpoint is only given for a name
    ending in [.pdf]; it names the uploaded file (not the temporary
    path), the provider and the model as they were sent, and carries the
    summary and the three-key metadata of the response of [summarize],
    which was run on the saved upload. *)
Theorem summarize_pdf_success (w : World) (file : UploadFile)
    (provider model : string) (temperature : Q) (max_tokens : option Z)
    (key : option string) (tr tr' : list event) (answer : APIResponse) :
  summarize_pdf w file provider model temperature max_tokens key tr
    = (inr answer, tr') →
  endswith (lower (filename file)) ".pdf" = true ∧
  api_filename answer = filename file ∧
  api_provider answer = provider ∧
  api_model answer = model ∧
  dom (api_metadata answer)
    = ({["pdf_pages"; "pdf_metadata"; "llm_metadata"]} : gset string) ∧
  ∃ temp_path tr1 request response tr2,
    save_upload w file tr = (inr temp_path, tr1) ∧
    pdf_path request = temp_path ∧
    summarize w request tr1 = (inr response, tr2) ∧
    api_summary answer = summary response ∧
    api_metadata answer = sr_metadata response.
Proof.
  intros H.
  destruct (endswith (lower (filename file)) ".pdf") eqn:Hname.
  2:{ unfold summarize_pdf in H. rewrite Hname in H. discriminate. }
  rewrite (summarize_pdf_unfold _ _ _ _ _ _ _ _ Hname) in H.
  destruct (save_upload w file tr) as [[e|temp_path] tr1] eqn:Hsave;
    [discriminate|].
  destruct (summarize w _ tr1) as [[e|response] tr2] eqn:Hrun; [discriminate|].
  injection H as <- _.
  destruct (summarize_returns_inv _ _ _ _ _ Hrun) as (r & lr & Hresp).
  split; [reflexivity|]. simpl.
  split; [reflexivity|]. split; [rewrite Hresp; reflexivity|].
  split; [rewrite Hresp; reflexivity|].
  split; [rewrite Hresp; apply summary_metadata_dom|].
  eexists temp_path, tr1, _, response, tr2.
  split; [reflexivity|]. split; [|split; [exact Hrun|split; reflexivity]].
  reflexivity.
Qed.

Lemma summarize_pdf_success_witness :
  ∃ answer tr',
    summarize_pdf local_world {| filename := "Q1.PDF"; file_read := inr [] |}
      "Ollama" "llama2" 0.7%Q None None [] = (inr answer, tr') ∧
    api_filename answer = "Q1.PDF" ∧
    api_provider answer = "Ollama" ∧
    api_summary answer = "Summary text".
Proof.
  eexists _, _. split; [vm_compute; reflexivity|].
  destruct (summarize_pdf_success local_world
              {| filename := "Q1.PDF"; file_read := inr [] |}
              "Ollama" "llama2" 0.7%Q None None [] _ _ eq_refl)
    as (_ & Hfile & Hprovider & _).
  split; [exact Hfile|]. split; [exact Hprovider|reflexivity].
Defined.

(** X21. For the cloud provider the endpoint uses the key of the form
    when it is not empty and [OPENAI_API_KEY] otherwise: with no key in
    the form and the variable set, the completion is asked for with the
    variable's value; with neither, the answer is 400 and no network call
    is made. *)
Theorem summarize_pdf_key_fallback (w : World) (file : UploadFile)
    (provider model : string) (temperature : Q) (max_tokens : option Z)
    (key : option string) (tr tr1 tr2 : list event) (temp_path : string)
    (pdf_result : PDFExtractResult) :
  endswith (lower (filename file)) ".pdf" = true →
  lower provider = "openai" →
  key = None ∨ key = Some "" →
  save_upload w file tr = (inr temp_path, tr1) →
  extract w PDFExtractorConfig_default temp_path tr1 = (inr pdf_result, tr2) →
  (∀ k, os_environ w !! "OPENAI_API_KEY" = Some k → k ≠ "" →
     ∃ call evs,
       (summarize_pdf w file provider model temperature max_tokens key tr).2
       = (tr1 ++ [EvOpenPdf temp_path; EvChatCompletion call] ++ evs)%list ∧
       call_api_key call = k) ∧
  (os_environ w !! "OPENAI_API_KEY" = None ∨
   os_environ w !! "OPENAI_API_KEY" = Some "" →
     ∃ evs,
       summarize_pdf w file provider model temperature max_tokens key tr
       = (inl {| status_code := 400;
                 detail := "Invalid request: OpenAI API key is required for OpenAI provider" |},
          (tr1 ++ [EvOpenPdf temp_path] ++ evs)%list) ∧
       Forall (λ ev, is_network_call ev = false) evs).
Proof.
  intros Hname Hprovider Hkey Hsave Hextract.
  apply truthy_str_false in Hkey.
  rewrite (summarize_pdf_unfold _ _ _ _ _ _ _ _ Hname), Hsave, Hkey.
  split.
  - intros k Henv Hk. rewrite Henv.
    pose proof (summarize_cloud_trace w
      {| pdf_path := temp_path; provider := provider; model := model;
         temperature := temperature; max_tokens := max_tokens;
         openai_api_key := Some k |} tr1 tr2 pdf_result k
      Hprovider eq_refl Hk Hextract) as Htrace.
    match type of Htrace with
    | _ = (_ ++ [_; EvChatCompletion ?call])%list => exists call
    end.
    destruct (summarize w _ tr1) as [[e|response] tr3]; simpl in Htrace;
      subst tr3; simpl.
    + exists (if negb (bool_decide (temp_path = "")) && os_path_exists w temp_path
              then [EvUnlink temp_path] else []).
      split; [|reflexivity].
      destruct (negb (bool_decide (temp_path = "")) && os_path_exists w temp_path);
        [rewrite <- app_assoc|]; reflexivity.
    + exists (if negb (bool_decide (temp_path = "")) && os_path_exists w temp_path
              then [EvUnlink temp_path] else []).
      split; [|reflexivity].
      destruct (negb (bool_decide (temp_path = "")) && os_path_exists w temp_path);
        [rewrite <- app_assoc|]; reflexivity.
  - intros Henv. apply truthy_str_false in Henv.
    assert (Hrun : summarize w
      {| pdf_path := temp_path; provider := provider; model := model;
         temperature := temperature; max_tokens := max_tokens;
         openai_api_key := os_environ w !! "OPENAI_API_KEY" |} tr1
      = (inl (mk_exc ValueError "OpenAI API key is required for OpenAI provider"),
         (tr1 ++ [EvOpenPdf temp_path])%list)).
    { rewrite summarize_unfold. unfold summarize_steps.
      rewrite (bind_inr _ _ _ _ _ Hextract).
      apply extract_returns_inv in Hextract as (_ & -> & _).
      apply bind_inl.
      rewrite get_llm_adapter_openai by exact Hprovider. simpl.
      rewrite Henv. reflexivity. }
    rewrite Hrun.
    exists (if negb (bool_decide (temp_path = "")) && os_path_exists w temp_path
            then [EvUnlink temp_path] else []).
    split.
    + simpl. destruct (negb (bool_decide (temp_path = "")) && os_path_exists w temp_path);
        [rewrite <- app_assoc|]; reflexivity.
    + destruct (negb (bool_decide (temp_path = "")) && os_path_exists w temp_path);
        repeat constructor.
Qed.

Lemma summarize_pdf_key_fallback_witness :
  ∃ call evs,
    (summarize_pdf (upload_world (inr gpt_completion))
       {| filename := "Q1.pdf"; file_read := inr [] |}
       "openai" "gpt-4o" 0.7%Q None (Some "") []).2
    = (([] ++ [EvTempFile; EvWrite "/tmp/tmpa1b2.pdf" []])
         ++ [EvOpenPdf "/tmp/tmpa1b2.pdf"; EvChatCompletion call] ++ evs)%list ∧
    call_api_key call = "sk-env".
Proof.
  apply (proj1 (summarize_pdf_key_fallback (upload_world (inr gpt_completion))
                  {| filename := "Q1.pdf"; file_read := inr [] |}
                  "openai" "gpt-4o" 0.7%Q None (Some "") []
                  ([] ++ [EvTempFile; EvWrite "/tmp/tmpa1b2.pdf" []])%list
                  _ "/tmp/tmpa1b2.pdf" _
                  eq_refl eq_refl (or_intror eq_refl) eq_refl
                  ltac:(vm_compute; reflexivity)) "sk-env").
  - reflexivity.
  - discriminate.
Defined.

(** * The console view *)

Lemma EOFError_eq : EOFError = mk_exc (OtherError "EOFError") "EOF when reading a line".
Proof. reflexivity. Qed.

Lemma get_pdf_path_loop_spec (w : World) (ops : PathOps) (lines : list string) :
  ∀ out,
    match get_pdf_path_loop w ops lines out with
    | (inr p, t') =>
        os_path_isfile w p = true ∧
        endswith (lower p) ".pdf" = true ∧
        (∃ line, line ∈ lines ∧ strip line ≠ "" ∧
                 p = if os_path_isabs ops (strip line) then strip line
                     else os_path_abspath ops (strip line)) ∧
        ∃ used, used ≠ [] ∧ lines = (used ++ stdin t')%list
    | (inl e, t') => e = EOFError ∧ stdin t' = []
    end.
Proof.
  induction lines as [|line rest IH]; intros out; simpl.
  { split; reflexivity. }
  destruct (bool_decide (strip line = "")) eqn:Hempty.
  { specialize (IH ((out ++ ["Enter the path to the PDF file: "])
                      ++ ["Path cannot be empty. Please try again."])%list).
    destruct (get_pdf_path_loop w ops rest _) as [[e|p] t']; [exact IH|].
    destruct IH as (Hfile & Hpdf & (l & Hin & Hl) & used & _ & ->).
    repeat split; try assumption.
    - exists l. split; [apply list_elem_of_further; exact Hin|exact Hl].
    - exists (line :: used). split; [discriminate|reflexivity]. }
  apply bool_decide_eq_false in Hempty.
  set (p := if os_path_isabs ops (strip line) then strip line
            else os_path_abspath ops (strip line)).
  destruct (os_path_isfile w p) eqn:Hfile; cbn [negb].
  2:{ specialize (IH ((out ++ ["Enter the path to the PDF file: "])
                        ++ ["File not found: " +:+ p;
                            "Please enter a valid path to a PDF file."])%list).
      destruct (get_pdf_path_loop w ops rest _) as [[e|q] t']; [exact IH|].
      destruct IH as (Hq & Hpdf & (l & Hin & Hl) & used & _ & ->).
      repeat split; try assumption.
      - exists l. split; [apply list_elem_of_further; exact Hin|exact Hl].
      - exists (line :: used). split; [discriminate|reflexivity]. }
  destruct (endswith (lower p) ".pdf") eqn:Hpdf; cbn [negb].
  2:{ specialize (IH ((out ++ ["Enter the path to the PDF file: "])
                        ++ ["File is not a PDF: " +:+ p;
                            "Please enter a path to a PDF file."])%list).
      destruct (get_pdf_path_loop w ops rest _) as [[e|q] t']; [exact IH|].
      destruct IH as (Hq & Hpdf' & (l & Hin & Hl) & used & _ & ->).
      repeat split; try assumption.
      - exists l. split; [apply list_elem_of_further; exact Hin|exact Hl].
      - exists (line :: used). split; [discriminate|reflexivity]. }
  simpl. repeat split; try assumption.
  - exists line. split; [apply list_elem_of_here|]. split; [exact Hempty|reflexivity].
  - exists [line]. split; [discriminate|reflexivity].
Qed.

(** X22. [get_pdf_path] only returns the path of an existing file whose
    name ends in [.pdf] in any case, made from one of the lines typed
    (stripped, and made absolute when it was not); it keeps asking
    otherwise, and fails only when the input ends, with [EOFError]. *)
Theorem get_pdf_path_valid (w : World) (ops : PathOps) (t : Terminal) :
  match get_pdf_path w ops t with
  | (inr p, t') =>
      os_path_isfile w p = true ∧
      endswith (lower p) ".pdf" = true ∧
      (∃ line, line ∈ stdin t ∧ strip line ≠ "" ∧
               p = if os_path_isabs ops (strip line) then strip line
                   else os_path_abspath ops (strip line)) ∧
      ∃ used, used ≠ [] ∧ stdin t = (used ++ stdin t')%list
  | (inl e, t') => e = EOFError ∧ stdin t' = []
  end.
Proof. unfold get_pdf_path. apply get_pdf_path_loop_spec. Qed.

Lemma select_provider_loop_spec (lines : list string) :
  ∀ out,
    match select_provider_loop lines out with
    | (inr provider, t') => provider = "ollama" ∨ provider = "openai"
    | (inl e, t') => e = EOFError ∧ stdin t' = []
    end.
Proof.
  induction lines as [|line rest IH]; intros out; simpl.
  { split; reflexivity. }
  destruct (bool_decide (lower (strip line) ∈ ["ollama"; "openai"])) eqn:Hin;
    cbn [negb].
  - apply bool_decide_eq_true in Hin.
    apply elem_of_cons in Hin as [H|Hin]; [left; exact H|].
    apply elem_of_cons in Hin as [H|Hin]; [right; exact H|].
    by apply elem_of_nil in Hin.
  - apply IH.
Qed.

Lemma str_or_nonempty (x dflt : string) : dflt ≠ "" → str_or x dflt ≠ "".
Proof.
  intros Hd. unfold str_or.
  destruct (bool_decide (x = "")) eqn:Hx; [exact Hd|].
  apply bool_decide_eq_false in Hx. exact Hx.
Qed.

Lemma input_raises (prompt : string) (t t' : Terminal) (e : exc) :
  input prompt t = (inl e, t') → e = EOFError ∧ stdin t' = [].
Proof.
  unfold input. destruct (stdin t); [|discriminate].
  intros [= <- <-]. split; reflexivity.
Qed.

Lemma get_provider_details_spec (t : Terminal) :
  match get_provider_details t with
  | (inr (provider, model, api_key), t') =>
      model ≠ "" ∧
      (provider = "ollama" ∧ api_key = None ∨
       provider = "openai" ∧ ∃ k, api_key = Some k)
  | (inl e, t') => e = EOFError ∧ stdin t' = []
  end.
Proof.
  unfold get_provider_details. unfold mbind at 1, Console_bind.
  pose proof (select_provider_loop_spec (stdin t) (stdout t)) as Hsel.
  destruct (select_provider_loop (stdin t) (stdout t)) as [[e|provider] t1];
    [exact Hsel|].
  destruct Hsel as [-> | ->].
  - change (bool_decide ("ollama" = "ollama")) with true. cbv iota.
    unfold mbind, Console_bind, print. simpl.
    destruct (input "Enter model name (default: llama2): " _)
      as [[e|answer] t2] eqn:Hin.
    + exact (input_raises _ _ _ _ Hin).
    + simpl. split; [apply str_or_nonempty; discriminate|].
      left. split; reflexivity.
  - change (bool_decide ("openai" = "ollama")) with false. cbv iota.
    unfold mbind, Console_bind, print. simpl.
    destruct (input "Enter model name (default: gpt-3.5-turbo): " _)
      as [[e|answer] t2] eqn:Hin; [exact (input_raises _ _ _ _ Hin)|].
    destruct (input "Enter your OpenAI API key: " t2)
      as [[e|first_key] t3] eqn:Hkey1; [exact (input_raises _ _ _ _ Hkey1)|].
    clear Hin Hkey1. destruct (bool_decide (strip first_key = "")).
    + simpl.
      destruct (input "Enter your OpenAI API key: " _)
        as [[e|second_key] t4] eqn:Hkey2; [exact (input_raises _ _ _ _ Hkey2)|].
      simpl. split; [apply str_or_nonempty; discriminate|].
      right. split; [reflexivity|]. eexists; reflexivity.
    + simpl. split; [apply str_or_nonempty; discriminate|].
      right. split; [reflexivity|]. eexists; reflexivity.
Qed.

(** X23. [get_provider_details] returns [ollama] or [openai], in lower
    case, with a model name that is never empty (the provider's default
    when the answer is blank); for [ollama] there is no key, for [openai]
    there is one, possibly empty. Its only failure is the end of the
    input. *)
Theorem get_provider_details_valid (t : Terminal) :
  match get_provider_details t with
  | (inr (provider, model, api_key), t') =>
      model ≠ "" ∧
      (provider = "ollama" ∧ api_key = None ∨
       provider = "openai" ∧ ∃ k, api_key = Some k)
  | (inl e, t') => e = EOFError ∧ stdin t' = []
  end.
Proof. apply get_provider_details_spec. Qed.

(** X24. A request made by the console names an existing file, has the
    temperature 0.7 and no token cap, and a provider that
    [_get_llm_adapter] knows: resolution gives an adapter, except for
    [openai] with a key left blank, where it fails with the missing-key
    [ValueError]; it never fails on the provider's name. *)
Theorem console_request_resolves (w : World) (ops : PathOps)
    (t t' : Terminal) (request : SummaryRequest) :
  get_summary_request w ops t = (inr request, t') →
  os_path_isfile w (pdf_path request) = true ∧
  temperature request = 0.7%Q ∧
  max_tokens request = None ∧
  ∀ tr,
    (∃ a, _get_llm_adapter w request tr = (inr a, tr)) ∨
    (provider request = "openai" ∧
     openai_api_key request = Some "" ∧
     _get_llm_adapter w request tr
     = (inl (mk_exc ValueError "OpenAI API key is required for OpenAI provider"),
        tr)).
Proof.
  unfold get_summary_request. unfold mbind at 1, Console_bind.
  pose proof (get_pdf_path_loop_spec w ops (stdin t) (stdout t)) as Hpath.
  unfold get_pdf_path.
  destruct (get_pdf_path_loop w ops (stdin t) (stdout t)) as [[e|p] t1];
    [discriminate|].
  destruct Hpath as (Hfile & _).
  unfold mbind, Console_bind.
  pose proof (get_provider_details_spec t1) as Hdetails.
  destruct (get_provider_details t1) as [[e|[[prov mdl] key]] t2];
    [discriminate|].
  destruct Hdetails as (_ & Hprov).
  intros [= <- _]. simpl.
  split; [exact Hfile|]. split; [reflexivity|]. split; [reflexivity|].
  intros tr. destruct Hprov as [[-> ->]|[-> [k ->]]].
  - left. eexists. reflexivity.
  - rewrite get_llm_adapter_openai by reflexivity. simpl.
    destruct (bool_decide (k = "")) eqn:Hk; simpl.
    + apply bool_decide_eq_true in Hk. subst k. right. repeat split.
    + left. eexists. reflexivity.
Qed.

Lemma console_request_resolves_witness :
  ∃ request t',
    get_summary_request (pdf_world (inr report_pdf) (inl refused) (inl no_connection))
      posix_paths
      {| stdin := [""; "nope.pdf"; " report.pdf "; "x"; " OLLAMA"; ""];
         stdout := [] |} = (inr request, t') ∧
    pdf_path request = "/data/report.pdf" ∧
    provider request = "ollama" ∧
    model request = "llama2" ∧
    os_path_isfile (pdf_world (inr report_pdf) (inl refused) (inl no_connection))
      (pdf_path request) = true.
Proof.
  eexists _, _. split; [vm_compute; reflexivity|].
  split; [reflexivity|]. split; [reflexivity|]. split; [reflexivity|].
  refine (proj1 (console_request_resolves
            (pdf_world (inr report_pdf) (inl refused) (inl no_connection))
            posix_paths
            {| stdin := [""; "nope.pdf"; " report.pdf "; "x"; " OLLAMA"; ""];
               stdout := [] |} _ _ _)).
  vm_compute. reflexivity.
Defined.

(** * [main.py] *)

(** X25. The identifier made for a route is never empty: it is
    [tag-name] with the first tag when the route has tags and a name, the
    name alone when it has no tags, and [unnamed-route-] followed by the
    path format when it has no name. *)
Theorem custom_generate_unique_id_nonempty (route : APIRoute) :
  custom_generate_unique_id route ≠ "" ∧
  (∀ tag tags, route_tags route = tag :: tags → route_name route ≠ "" →
     custom_generate_unique_id route = tag +:+ "-" +:+ route_name route) ∧
  (route_tags route = [] → route_name route ≠ "" →
     custom_generate_unique_id route = route_name route) ∧
  (route_name route = "" →
     custom_generate_unique_id route
     = "unnamed-route-" +:+ route_path_format route).
Proof.
  unfold custom_generate_unique_id, str_or.
  destruct (route_tags route) as [|tag tags];
    destruct (bool_decide (route_name route = "")) eqn:Hname; simpl.
  - apply bool_decide_eq_true in Hname. repeat split; try discriminate.
    intros _ H. contradiction.
  - apply bool_decide_eq_false in Hname. repeat split; try discriminate.
    + exact Hname.
    + intros H. contradiction.
  - apply bool_decide_eq_true in Hname. repeat split; try discriminate.
    intros tag' tags' _ H. contradiction.
  - apply bool_decide_eq_false in Hname. repeat split; try discriminate.
    + destruct tag; discriminate.
    + intros tag' tags' [= <- <-] _. reflexivity.
    + intros H. contradiction.
Qed.
